(** * Hospital resource scheduler: the web front end and the scheduling core

    A shallow embedding of [scheduler-frontend/src] (the API client [api.js]
    and the React components [RequestForm], [SchedulePanel],
    [AllocationResults], [ResourceList]) together with the properties the
    specification states about them.

    The JavaScript values that flow through the components are modelled by
    [Js.value]; the built-ins the components call ([parseInt],
    [JSON.stringify], property access, [||], [!], string concatenation) are
    modelled in [Module Js] after ECMA-262.  Asynchronous functions are
    modelled by the outcome of the promise they return. *)

From Stdlib Require Import ZArith List String Ascii Bool Lia.
From Stdlib Require Import DecimalString DecimalPos Permutation Sorted.
Import ListNotations.

Set Warnings "-register-all".

Local Open Scope string_scope.
Local Open Scope Z_scope.

(* ===================================================================== *)
(** * JavaScript values and built-ins *)
(* ===================================================================== *)

Module Js.

(** A Number is NaN or an integer.  These are the only numbers the form
    produces ([parseInt] and numeric literals).  An integer is represented
    by its mathematical value, which is the Number itself up to 2^53 in
    magnitude (beyond, JavaScript rounds to the nearest double); [-0] is
    identified with [0]. *)
Inductive number : Type :=
| NaN
| Int (z : Z).

(** The values JSON can carry, plus [undefined].  An object is the list of
    its own properties in insertion order, with distinct keys. *)
Inductive value : Type :=
| Undefined
| Null
| Bool (b : bool)
| Number (n : number)
| Str (s : string)
| Arr (items : list value)
| Obj (props : list (string * value)).

Inductive error : Type :=
| TypeError (msg : string)
| SyntaxError (msg : string)
| NetworkError (msg : string).

(** The settled state of a promise (or the completion of a synchronous
    call): a value, or a thrown exception. *)
Inductive outcome (A : Type) : Type :=
| Fulfilled (a : A)
| Rejected (e : error).
Arguments Fulfilled {A} a.
Arguments Rejected {A} e.

(** [await]: the continuation runs only when the promise is fulfilled. *)
Definition bind {A B : Type} (m : outcome A) (k : A -> outcome B) : outcome B :=
  match m with
  | Fulfilled a => k a
  | Rejected e => Rejected e
  end.

Declare Scope js_scope.
Delimit Scope js_scope with js.
Notation "'await' x <- m ;; k" := (bind m (fun x => k))
  (at level 10, x name, m at level 100, k at level 200) : js_scope.

(** ** ToBoolean: the operand test of [!] and [||] *)
Definition ToBoolean (v : value) : bool :=
  match v with
  | Undefined | Null => false
  | Bool b => b
  | Number NaN => false
  | Number (Int z) => negb (z =? 0)
  | Str s => negb (s =? "")%string
  | Arr _ | Obj _ => true
  end.

(** [a || b] *)
Definition or_else (a b : value) : value :=
  if ToBoolean a then a else b.

(** ** Property access *)
Fixpoint lookup (k : string) (props : list (string * value)) : value :=
  match props with
  | [] => Undefined
  | (k', v) :: rest => if (k =? k')%string then v else lookup k rest
  end.

(** [v.k] for the property names the components read ([allocations],
    [length], [patient], [resource], [resource_type], [id], [name], [type],
    [status]); none of them is defined on a built-in prototype, so on an
    array or a primitive only [length] can be found.  The length of a string
    is counted in bytes, which is its length in JavaScript for ASCII text
    and is zero for the empty string only. *)
Definition Get (v : value) (k : string) : outcome value :=
  match v with
  | Undefined =>
      Rejected (TypeError ("Cannot read properties of undefined (reading '" ++ k ++ "')"))
  | Null =>
      Rejected (TypeError ("Cannot read properties of null (reading '" ++ k ++ "')"))
  | Obj props => Fulfilled (lookup k props)
  | Arr items =>
      Fulfilled (if (k =? "length")%string
                 then Number (Int (Z.of_nat (List.length items)))
                 else Undefined)
  | Str s =>
      Fulfilled (if (k =? "length")%string
                 then Number (Int (Z.of_nat (String.length s)))
                 else Undefined)
  | Bool _ | Number _ => Fulfilled Undefined
  end.

(** ** Number::toString and ToString *)
Definition decimal (z : Z) : string :=
  NilZero.string_of_int (Z.to_int z).

Definition number_to_string (n : number) : string :=
  match n with
  | NaN => "NaN"
  | Int z => decimal z
  end.

Fixpoint join (sep : string) (parts : list string) : string :=
  match parts with
  | [] => ""
  | [p] => p
  | p :: rest => p ++ sep ++ join sep rest
  end.

Fixpoint ToString (v : value) : string :=
  match v with
  | Undefined => "undefined"
  | Null => "null"
  | Bool true => "true"
  | Bool false => "false"
  | Number n => number_to_string n
  | Str s => s
  | Arr items =>
      join "," (map (fun x => match x with
                              | Undefined | Null => ""
                              | _ => ToString x
                              end) items)
  | Obj _ => "[object Object]"
  end.

(** ["text" + v] with a string on the left *)
Definition concat (s : string) (v : value) : string := s ++ ToString v.

(** ** parseInt(string) with the radix left undefined

    Leading white space is skipped (the ASCII white space characters), a
    sign is read, a [0x] prefix selects radix 16, and the longest prefix of
    digits is the result; no digit at all gives NaN. *)
Definition is_whitespace (c : ascii) : bool :=
  let n := nat_of_ascii c in
  ((9 <=? n) && (n <=? 13) || (n =? 32))%nat.

Fixpoint trim_start (s : string) : string :=
  match s with
  | String c rest => if is_whitespace c then trim_start rest else s
  | EmptyString => s
  end.

(** The value of [c] as a digit of the given radix, if it is one. *)
Definition digit_value (radix : Z) (c : ascii) : option Z :=
  let n := Z.of_nat (nat_of_ascii c) in
  let d := if (48 <=? n) && (n <=? 57) then Some (n - 48)
           else if (97 <=? n) && (n <=? 122) then Some (n - 87)
           else if (65 <=? n) && (n <=? 90) then Some (n - 55)
           else None in
  match d with
  | Some v => if v <? radix then Some v else None
  | None => None
  end.

(** Reads the longest prefix of digits; [acc] is [None] until one is read. *)
Fixpoint digits (radix : Z) (acc : option Z) (s : string) : option Z :=
  match s with
  | EmptyString => acc
  | String c rest =>
      match digit_value radix c with
      | Some d =>
          digits radix (Some (match acc with
                              | Some a => a * radix + d
                              | None => d
                              end)) rest
      | None => acc
      end
  end.

Definition parseInt (input : string) : number :=
  let s := trim_start input in
  let '(sign, s) :=
    match s with
    | String "-" rest => (-1, rest)
    | String "+" rest => (1, rest)
    | _ => (1, s)
    end in
  let '(radix, s) :=
    match s with
    | String "0" (String "x" rest) => (16, rest)
    | String "0" (String "X" rest) => (16, rest)
    | _ => (10, s)
    end in
  match digits radix None s with
  | None => NaN
  | Some m => Int (sign * m)
  end.

(** ** JSON.stringify *)
Definition dquote : ascii := ascii_of_nat 34.

Definition hex_digit (n : nat) : ascii :=
  ascii_of_nat (if (n <? 10)%nat then 48 + n else 87 + n).

Definition quote_char (c : ascii) : string :=
  let n := nat_of_ascii c in
  if (n =? 34)%nat then String "\" (String dquote "")
  else if (n =? 92)%nat then "\\"
  else if (n =? 8)%nat then "\b"
  else if (n =? 9)%nat then "\t"
  else if (n =? 10)%nat then "\n"
  else if (n =? 12)%nat then "\f"
  else if (n =? 13)%nat then "\r"
  else if (n <? 32)%nat
       then "\u00" ++ String (hex_digit (n / 16)) (String (hex_digit (n mod 16)) "")
  else String c "".

Fixpoint quote_chars (s : string) : string :=
  match s with
  | EmptyString => ""
  | String c rest => quote_char c ++ quote_chars rest
  end.

Definition quote (s : string) : string :=
  String dquote (quote_chars s ++ String dquote "").

(** [None] is the [undefined] that [JSON.stringify(undefined)] returns. *)
Fixpoint JSON_stringify (v : value) : option string :=
  match v with
  | Undefined => None
  | Null => Some "null"
  | Bool true => Some "true"
  | Bool false => Some "false"
  | Number NaN => Some "null"
  | Number (Int z) => Some (decimal z)
  | Str s => Some (quote s)
  | Arr items =>
      Some ("[" ++ join "," (map (fun x => match JSON_stringify x with
                                          | Some t => t
                                          | None => "null"
                                          end) items) ++ "]")
  | Obj props =>
      Some ("{" ++ join "," (flat_map (fun p => match JSON_stringify (snd p) with
                                               | Some t => [quote (fst p) ++ ":" ++ t]
                                               | None => []
                                               end) props) ++ "}")
  end.

End Js.

Import Js.
Local Open Scope js_scope.

(* ===================================================================== *)
(** * api.js: the client of the REST layer *)
(* ===================================================================== *)

Module Api.

(** The arguments of one [fetch] call: the resource and the init object. *)
Record request : Type := {
  url : string;
  method : string;
  headers : list (string * string);
  body : option string
}.

(** The [Response] a fulfilled [fetch] yields, as far as a client can look at
    it: its HTTP status and what its [json()] method settles to (the parsed
    body, or the [SyntaxError] of a body that is not JSON). *)
Record response : Type := {
  status : Z;
  json : outcome value
}.

Definition BASE_URL : string := "http://127.0.0.1:8000".

Definition createRequest_call (data : value) : request :=
  {| url := BASE_URL ++ "/request";
     method := "POST";
     headers := [("Content-Type", "application/json")];
     body := JSON_stringify data |}.

Definition runScheduler_call (alg : value) : request :=
  {| url := BASE_URL ++ "/schedule/" ++ ToString alg;
     method := "POST";
     headers := [];
     body := None |}.

Definition getResources_call : request :=
  {| url := BASE_URL ++ "/resources";
     method := "GET";
     headers := [];
     body := None |}.

(** An asynchronous client function, run against a network: the requests it
    has passed to [fetch], in order, and how its promise settles. *)
Definition task (A : Type) : Type := list request * outcome A.

Definition ret {A : Type} (a : A) : task A := ([], Fulfilled a).

(** A synchronous step inside an async function; an exception it throws
    rejects the promise. *)
Definition lift {A : Type} (o : outcome A) : task A := ([], o).

(** [await] inside an async function. *)
Definition then_ {A B : Type} (m : task A) (k : A -> task B) : task B :=
  match m with
  | (sent, Fulfilled a) => let '(sent', o) := k a in ((sent ++ sent')%list, o)
  | (sent, Rejected e) => (sent, Rejected e)
  end.

Declare Scope async_scope.
Delimit Scope async_scope with async.
Notation "'await' x <- m ;; k" := (then_ m (fun x => k))
  (at level 10, x name, m at level 100, k at level 200) : async_scope.

Definition sent {A : Type} (t : task A) : list request := fst t.
Definition settled {A : Type} (t : task A) : outcome A := snd t.

Section Client.

(** The network and the server behind it. *)
Variable network : request -> outcome response.

Definition fetch (r : request) : task response := ([r], network r).

Definition createRequest (data : value) : task value :=
  (await res <- fetch (createRequest_call data) ;;
   lift (json res))%async.

Definition runScheduler (alg : value) : task value :=
  (await res <- fetch (runScheduler_call alg) ;;
   lift (json res))%async.

Definition getResources : task value :=
  (await res <- fetch getResources_call ;;
   lift (json res))%async.

End Client.

End Api.

Import Api.

(* ===================================================================== *)
(** * React elements *)
(* ===================================================================== *)

Module React.

(** What a component function returns, before React commits it to the
    page: elements whose children are JSX text, [{expression}] values,
    nested elements, or an array of elements. *)
Inductive node : Type :=
| Text (s : string)
| Expr (v : value)
| Items (l : list node)
| Elem (tag : string) (key : option value) (className : option string)
       (children : list node).

(** The values of the [{expression}] children, in document order. *)
Fixpoint exprs (n : node) : list value :=
  match n with
  | Text _ => []
  | Expr v => [v]
  | Items l => flat_map exprs l
  | Elem _ _ _ children => flat_map exprs children
  end.

(** [items.map((x, i) => f x i)] where the callback may throw. *)
Fixpoint map_from {A : Type} (f : value -> nat -> outcome A) (i : nat)
    (items : list value) : outcome (list A) :=
  match items with
  | [] => Fulfilled []
  | x :: rest =>
      await y <- f x i ;;
      await ys <- map_from f (S i) rest ;;
      Fulfilled (y :: ys)
  end.

(** [v.map(f)]: only an array has a [map] method. *)
Definition call_map {A : Type} (name : string) (v : value)
    (f : value -> nat -> outcome A) : outcome (list A) :=
  match v with
  | Arr items => map_from f 0%nat items
  | Undefined =>
      Rejected (TypeError "Cannot read properties of undefined (reading 'map')")
  | Null =>
      Rejected (TypeError "Cannot read properties of null (reading 'map')")
  | _ => Rejected (TypeError (name ++ ".map is not a function"))
  end.

End React.

Import React.

(* ===================================================================== *)
(** * components/RequestForm.js *)
(* ===================================================================== *)

Module RequestForm.

(** The [form] state object.  [patient_name] and [resource_type] only ever
    hold strings, [priority] and [duration] only numbers. *)
Record form : Type := {
  patient_name : string;
  resource_type : string;
  priority : number;
  duration : number
}.

Definition initial_form : form :=
  {| patient_name := "";
     resource_type := "Bed";
     priority := Int 2;
     duration := Int 30 |}.

(** The object itself, keys in insertion order; the spread
    [{...form, k: v}] keeps the position of an existing key. *)
Definition form_value (f : form) : value :=
  Obj [("patient_name", Str (patient_name f));
       ("resource_type", Str (resource_type f));
       ("priority", Number (priority f));
       ("duration", Number (duration f))].

(** The [<option>]s of the two [<select>]s.  An option without a [value]
    attribute has its text as value. *)
Definition resource_type_options : list string :=
  ["Bed"; "Doctor"; "Operating Room"].

(** [(value, text)] of each priority option. *)
Definition priority_options : list (number * string) :=
  [(Int 1, "Critical"); (Int 2, "High"); (Int 3, "Medium"); (Int 4, "Low")].

(** The DOM value of an option is the string of its [value] attribute. *)
Definition priority_option_values : list string :=
  map (fun o => number_to_string (fst o)) priority_options.

(** An [onChange] event of one of the four controls, with [e.target.value]. *)
Inductive event : Type :=
| PatientNameChange (target_value : string)
| ResourceTypeChange (target_value : string)
| PriorityChange (target_value : string)
| DurationChange (target_value : string).

(** The four [onChange] handlers. *)
Definition onChange (f : form) (e : event) : form :=
  match e with
  | PatientNameChange v =>
      {| patient_name := v; resource_type := resource_type f;
         priority := priority f; duration := duration f |}
  | ResourceTypeChange v =>
      {| patient_name := patient_name f; resource_type := v;
         priority := priority f; duration := duration f |}
  | PriorityChange v =>
      {| patient_name := patient_name f; resource_type := resource_type f;
         priority := parseInt v; duration := duration f |}
  | DurationChange v =>
      {| patient_name := patient_name f; resource_type := resource_type f;
         priority := priority f; duration := parseInt v |}
  end.

(** The form after a sequence of edits, starting from the initial state. *)
Definition form_after (es : list event) : form :=
  fold_left onChange es initial_form.

(** What the browser guarantees of an event: the value of a [<select>] is the
    value of one of its options.  The text and number inputs are left
    unconstrained. *)
Definition from_dom (e : event) : Prop :=
  match e with
  | ResourceTypeChange v => In v resource_type_options
  | PriorityChange v => In v priority_option_values
  | PatientNameChange _ | DurationChange _ => True
  end.

Section Submit.

Variable network : Api.request -> outcome Api.response.

(** [handleSubmit]: the text passed to [alert], when it is reached. *)
Definition handleSubmit (f : form) : Api.task string :=
  (await res <- Api.createRequest network (form_value f) ;;
   await id <- Api.lift (Get res "id") ;;
   Api.ret (concat "Request submitted! ID = " id))%async.

End Submit.

End RequestForm.

(* ===================================================================== *)
(** * components/SchedulePanel.js *)
(* ===================================================================== *)

Module SchedulePanel.

(** The three buttons the panel renders. *)
Inductive button : Type :=
| FCFS
| Priority
| RoundRobin.

Definition buttons : list button := [FCFS; Priority; RoundRobin].

Definition label (b : button) : string :=
  match b with
  | FCFS => "FCFS"
  | Priority => "Priority"
  | RoundRobin => "Round Robin"
  end.

(** The argument the button's [onClick] passes to [run]. *)
Definition onClick_alg (b : button) : value :=
  match b with
  | FCFS => Str "fcfs"
  | Priority => Str "priority"
  | RoundRobin => Str "rr"
  end.

Section Run.

Variable network : Api.request -> outcome Api.response.

(** [run]: the value passed to [setAllocations], when it is reached. *)
Definition run (alg : value) : Api.task value :=
  (await res <- Api.runScheduler network alg ;;
   await a <- Api.lift (Get res "allocations") ;;
   Api.ret (or_else a (Arr [])))%async.

(** The [allocations] state of [App] after a click: [setAllocations] is
    not called when [run] throws. *)
Definition onClick (b : button) (allocations : value) : value :=
  match Api.settled (run (onClick_alg b)) with
  | Fulfilled v => v
  | Rejected _ => allocations
  end.

End Run.

End SchedulePanel.

(* ===================================================================== *)
(** * components/AllocationResults.js *)
(* ===================================================================== *)

Module AllocationResults.

Definition empty_state : node :=
  Elem "p" None None [Text "No allocations yet."].

(** The callback of [allocations.map]. *)
Definition row (a : value) (i : nat) : outcome node :=
  await patient <- Get a "patient" ;;
  await resource <- Get a "resource" ;;
  await resource_type <- Get a "resource_type" ;;
  Fulfilled
    (Elem "p" (Some (Number (Int (Z.of_nat i)))) None
       [Elem "strong" None None [Expr patient];
        Text " → "; Expr resource; Text " ("; Expr resource_type; Text ")"]).

Definition AllocationResults (allocations : value) : outcome node :=
  await len <- Get allocations "length" ;;
  if negb (ToBoolean len) then Fulfilled empty_state
  else
    await rows <- call_map "allocations" allocations row ;;
    Fulfilled
      (Elem "div" None None
         [Elem "h2" None None [Text "Scheduling Output"]; Items rows]).

End AllocationResults.

(* ===================================================================== *)
(** * components/ResourceList.js *)
(* ===================================================================== *)

Module ResourceList.

(** The callback of [resources.map]. *)
Definition card (res : value) (i : nat) : outcome node :=
  await id <- Get res "id" ;;
  await status <- Get res "status" ;;
  await name <- Get res "name" ;;
  await type <- Get res "type" ;;
  Fulfilled
    (Elem "div" (Some id) (Some (concat "resource-card " status))
       [Elem "h3" None None [Expr name];
        Elem "p" None None [Text "Type: "; Expr type];
        Elem "p" None None
          [Text "Status: ";
           Elem "span" None (Some (concat "status-" status)) [Expr status]]]).

Definition ResourceList (resources : value) : outcome node :=
  await cards <- call_map "resources" resources card ;;
  Fulfilled
    (Elem "div" None (Some "resource-panel")
       [Elem "h2" None None [Text "Hospital Resources"];
        Elem "button" None (Some "refresh-btn") [Text "Refresh"];
        Elem "div" None (Some "resource-grid") [Items cards]]).

Section Refresh.

Variable network : Api.request -> outcome Api.response.

(** [refresh]: the value passed to [setResources], when it is reached. *)
Definition refresh : Api.task value :=
  Api.getResources network.

(** The [resources] state after [refresh]: [setResources] is not called
    when the request throws. *)
Definition refreshed (resources : value) : value :=
  match Api.settled refresh with
  | Fulfilled data => data
  | Rejected _ => resources
  end.

End Refresh.

End ResourceList.

(* ===================================================================== *)
(** * App.js and the state of the panels over time *)
(* ===================================================================== *)

Module App.

(** [useState([])]: the allocations [App] holds and passes to
    [AllocationResults]. *)
Definition initial_allocations : value := Arr [].

(** One click on a button of the schedule panel, with the network as it
    answers at that moment. *)
Definition click : Type :=
  (SchedulePanel.button * (Api.request -> outcome Api.response))%type.

(** The allocations after a sequence of clicks: each click's [run] calls
    [setAllocations], or throws and leaves the state. *)
Definition allocations_after (cs : list click) : value :=
  fold_left (fun st c => SchedulePanel.onClick (snd c) (fst c) st) cs
    initial_allocations.

End App.

(* ===================================================================== *)
(** * The scheduling core

    The engine behind the REST layer (inventory, queue, schedulers, manager)
    is not among the sources of the front end; the definitions of this
    module follow the specification's sections 3, 4 and 7. *)
(* ===================================================================== *)

Module Core.

(** Modelled from the spec: ResourceType, the enumeration of section 3 (the
    engine's data model is missing from the sources). *)
Inductive ResourceType : Type :=
| Bed
| Doctor
| OperatingRoom.

(** Modelled from the spec: the status of a Resource (section 3). *)
Inductive ResourceStatus : Type :=
| Available
| Occupied
| Maintenance.

(** Modelled from the spec: Resource (section 3): unique id, type, human
    label, status. *)
Record Resource : Type := {
  resource_id : nat;
  resource_type : ResourceType;
  resource_label : string;
  resource_status : ResourceStatus
}.

(** Modelled from the spec: Request (section 3), with the fields a
    scheduler reads: id, patient name, requested type, priority, requested
    duration in minutes, arrival timestamp. *)
Record Request : Type := {
  request_id : nat;
  patientName : string;
  requested : ResourceType;
  priority : Z;
  durationMinutes : Z;
  arrival : nat
}.

(** Modelled from the spec: AllocationDecision (section 3): request id,
    resource id, assigned duration. *)
Record AllocationDecision : Type := {
  decided_request : nat;
  decided_resource : nat;
  assigned_duration : Z
}.

(** Modelled from the spec: equality of two resource types, for the
    type-compatibility test of section 4.3. *)
Definition ResourceType_eqb (a b : ResourceType) : bool :=
  match a, b with
  | Bed, Bed | Doctor, Doctor | OperatingRoom, OperatingRoom => true
  | _, _ => false
  end.

(** Modelled from the spec: the status test of [listAvailable] (section
    4.1); a resource that is Occupied or in Maintenance is not offered. *)
Definition is_available (x : Resource) : bool :=
  match resource_status x with
  | Available => true
  | _ => false
  end.

(** ** Resource Inventory (section 4.1) *)

(** Modelled from the spec: the ascending-id order of section 4.1, by
    insertion (the inventory is missing from the sources). *)
Fixpoint insert_by_id (x : Resource) (l : list Resource) : list Resource :=
  match l with
  | [] => [x]
  | y :: rest =>
      if (resource_id x <=? resource_id y)%nat then x :: l
      else y :: insert_by_id x rest
  end.

(** Modelled from the spec: the stable order (ascending id) in which
    section 4.1 lists resources. *)
Definition sort_by_id (l : list Resource) : list Resource :=
  fold_right insert_by_id [] l.

(** Modelled from the spec: [listAvailable(type)] of section 4.1, the
    resources of the type whose status is Available, by ascending id. *)
Definition listAvailable (t : ResourceType) (inv : list Resource) : list Resource :=
  sort_by_id
    (filter (fun x => ResourceType_eqb (resource_type x) t && is_available x) inv).

(** Modelled from the spec: the effect of a successful [tryReserve(id)] of
    section 4.1 on the inventory: the resource flips from Available to
    Occupied. *)
Definition reserve (id : nat) (inv : list Resource) : list Resource :=
  map (fun x =>
         if (resource_id x =? id)%nat && is_available x
         then {| resource_id := resource_id x;
                 resource_type := resource_type x;
                 resource_label := resource_label x;
                 resource_status := Occupied |}
         else x) inv.

(** ** Schedulers (section 4.3) *)

(** Modelled from the spec: the capability [plan(requests, snapshot)]: the
    decisions in order, and the requests left unallocated. *)
Definition plan : Type :=
  list Request -> list Resource -> list AllocationDecision * list Request.

(** Modelled from the spec: FCFS (section 4.3): walk the requests in the
    given order and give each the available resource of its type with the
    least id, for the full requested duration; a request with no resource
    left stays unallocated. *)
Fixpoint FCFS (requests : list Request) (inv : list Resource)
    : list AllocationDecision * list Request :=
  match requests with
  | [] => ([], [])
  | r :: rest =>
      match listAvailable (requested r) inv with
      | x :: _ =>
          let '(ds, unallocated) := FCFS rest (reserve (resource_id x) inv) in
          ({| decided_request := request_id r;
              decided_resource := resource_id x;
              assigned_duration := durationMinutes r |} :: ds, unallocated)
      | [] =>
          let '(ds, unallocated) := FCFS rest inv in
          (ds, r :: unallocated)
      end
  end.

(** Modelled from the spec: the sort key of the Priority scheduler of
    section 4.3 (priority ascending, arrival timestamp ascending). *)
Definition key_le (a b : Request) : bool :=
  (priority a <? priority b)
  || ((priority a =? priority b) && (arrival a <=? arrival b)%nat).

(** Modelled from the spec: one step of the stable sort of section 4.3; the
    request goes before the first one whose key is not smaller. *)
Fixpoint insert_by_key (r : Request) (l : list Request) : list Request :=
  match l with
  | [] => [r]
  | x :: rest =>
      if key_le r x then r :: l else x :: insert_by_key r rest
  end.

(** Modelled from the spec: the stable sort of the batch by (priority
    ascending, arrival timestamp ascending) of section 4.3: an insertion
    sort that puts a request before the first one that does not precede
    it, so equal keys keep their order. *)
Definition sort_by_priority (requests : list Request) : list Request :=
  fold_right insert_by_key [] requests.

(** Modelled from the spec: Priority (section 4.3): stable-sort the batch,
    then proceed exactly as FCFS over the sorted order. *)
Definition Priority (requests : list Request) (inv : list Resource)
    : list AllocationDecision * list Request :=
  FCFS (sort_by_priority requests) inv.

(** Modelled from the spec: the allocation order of a pass, the request ids
    of its decisions in the order they were made. *)
Definition allocation_order (p : list AllocationDecision * list Request) : list nat :=
  map decided_request (fst p).

(** Modelled from the spec: the number of requests of a batch for one
    type, for the sufficient resources of section 8. *)
Definition demand (t : ResourceType) (requests : list Request) : nat :=
  List.length (filter (fun r => ResourceType_eqb (requested r) t) requests).

(** Modelled from the spec: the number of resources of one type the
    inventory offers (section 4.1). *)
Definition supply (t : ResourceType) (inv : list Resource) : nat :=
  List.length (listAvailable t inv).

(** Modelled from the spec: sufficient resources (section 8): every type
    has at least as many available resources as the batch has requests for
    it, and resource ids are unique (section 3). *)
Definition ample (requests : list Request) (inv : list Resource) : Prop :=
  NoDup (map resource_id inv)
  /\ forall t, (demand t requests <= supply t inv)%nat.

(** ** Resource Manager: submission (sections 4.4 and 7) *)

(** Modelled from the spec: the state the Manager owns (section 4.4):
    inventory, queue of pending requests, and the counters from which ids
    and arrival timestamps are assigned. *)
Record Manager : Type := {
  inventory : list Resource;
  queue : list Request;
  next_id : nat;
  clock : nat
}.

(** Modelled from the spec: the fields of a submission that the validation
    of section 7 looks at. *)
Inductive Field : Type :=
| resourceType_field
| priority_field
| durationMinutes_field.

(** Modelled from the spec: the result of [submitRequest]: the created
    Request, or the ValidationError of section 7 with the field that
    failed. *)
Inductive Submitted : Type :=
| Created (r : Request)
| ValidationError (field : Field).

(** Modelled from the spec: the resourceType of the create-a-request
    operation of section 6 is one of Bed, Doctor, OperatingRoom; any other
    name is unknown. *)
Definition ResourceType_of_string (s : string) : option ResourceType :=
  if (s =? "Bed")%string then Some Bed
  else if (s =? "Doctor")%string then Some Doctor
  else if (s =? "OperatingRoom")%string then Some OperatingRoom
  else None.

(** Modelled from the spec: [submitRequest(patientName, type, priority,
    duration)] of section 4.4: validates the inputs (section 7), assigns id
    and arrival timestamp, enqueues at the back, returns the created
    Request.  On a ValidationError the state is returned as it was. *)
Definition submitRequest (m : Manager) (name type : string) (prio duration : Z)
    : Submitted * Manager :=
  match ResourceType_of_string type with
  | None => (ValidationError resourceType_field, m)
  | Some t =>
      if negb ((1 <=? prio) && (prio <=? 4))
      then (ValidationError priority_field, m)
      else if duration <=? 0
      then (ValidationError durationMinutes_field, m)
      else
        let r := {| request_id := next_id m;
                    patientName := name;
                    requested := t;
                    priority := prio;
                    durationMinutes := duration;
                    arrival := clock m |} in
        (Created r,
         {| inventory := inventory m;
            queue := queue m ++ [r];
            next_id := S (next_id m);
            clock := S (clock m) |})
  end.

(** Modelled from the spec: the three ways a submission is invalid
    (section 7): unknown resourceType, priority outside 1-4, non-positive
    duration. *)
Definition field_fails (f : Field) (type : string) (prio duration : Z) : Prop :=
  match f with
  | resourceType_field => ResourceType_of_string type = None
  | priority_field => prio < 1 \/ 4 < prio
  | durationMinutes_field => duration <= 0
  end.

(** Modelled from the spec: an invalid submission (section 7), one with a
    field that fails. *)
Definition invalid (type : string) (prio duration : Z) : Prop :=
  exists f, field_fails f type prio duration.

End Core.

(* ===================================================================== *)
(** * Vocabulary of the properties *)
(* ===================================================================== *)

(** The algorithm identifiers of the specification's run-a-scheduling-pass
    operation, and the ones the panel's buttons pass on. *)
Definition spec_algorithms : list value :=
  [Str "fcfs"; Str "priority"; Str "roundRobin"].

Definition panel_algorithms : list value :=
  [Str "fcfs"; Str "priority"; Str "rr"].

(** The resource types of the specification's create-a-request operation. *)
Definition spec_resource_types : list string :=
  ["Bed"; "Doctor"; "OperatingRoom"].

Definition priority_levels : list number :=
  [Int 1; Int 2; Int 3; Int 4].

Definition positive_integer (n : number) : Prop :=
  match n with
  | Int z => 0 < z
  | NaN => False
  end.

(** The payload the specification describes: a known resource type, a
    priority level, a positive duration. *)
Definition spec_payload (f : RequestForm.form) : Prop :=
  In (RequestForm.resource_type f) spec_resource_types
  /\ In (RequestForm.priority f) priority_levels
  /\ positive_integer (RequestForm.duration f).

(** The two selects keep the form within their options. *)
Definition within_options (f : RequestForm.form) : Prop :=
  In (RequestForm.resource_type f) RequestForm.resource_type_options
  /\ In (RequestForm.priority f) priority_levels.

(** The JSON text of a number: [NaN] is serialized as [null]. *)
Definition json_number (n : number) : string :=
  match n with
  | NaN => "null"
  | Int z => decimal z
  end.

(** The JSON text of the form object, member by member. *)
Definition form_json (f : RequestForm.form) : string :=
  "{" ++ join ","
    [quote "patient_name" ++ ":" ++ quote (RequestForm.patient_name f);
     quote "resource_type" ++ ":" ++ quote (RequestForm.resource_type f);
     quote "priority" ++ ":" ++ json_number (RequestForm.priority f);
     quote "duration" ++ ":" ++ json_number (RequestForm.duration f)]
  ++ "}".

(** [a.k] where a missing property and a thrown access both give
    [undefined]. *)
Definition field (a : value) (k : string) : value :=
  match Get a k with
  | Fulfilled v => v
  | Rejected _ => Undefined
  end.

(** The [{expression}] values a render shows; none when it throws. *)
Definition shown (o : outcome node) : list value :=
  match o with
  | Fulfilled n => exprs n
  | Rejected _ => []
  end.

Definition key_of (n : node) : option value :=
  match n with
  | Elem _ k _ _ => k
  | _ => None
  end.

Definition className_of (n : node) : option string :=
  match n with
  | Elem _ _ c _ => c
  | _ => None
  end.

(** A value whose properties can be read: anything but [undefined] and
    [null]. *)
Definition defined (v : value) : Prop :=
  v <> Undefined /\ v <> Null.

(** The fields of an allocation and of a resource that the components read. *)
Definition allocation_fields : list string :=
  ["patient"; "resource"; "resource_type"].

Definition resource_fields : list string :=
  ["name"; "type"; "status"].

(** The field names of the specification's two operations. *)
Definition spec_allocation_fields : list string :=
  ["patientName"; "resourceLabel"; "resourceType"; "durationMinutes"].

Definition spec_resource_fields : list string :=
  ["id"; "type"; "label"; "status"].

Definition agree_on (ks : list string) (a b : value) : Prop :=
  forall k, In k ks -> field a k = field b k.

(** The paragraph of one allocation and the card of one resource, written
    with the values of the fields. *)
Definition allocation_row (a : value) (i : nat) : node :=
  Elem "p" (Some (Number (Int (Z.of_nat i)))) None
    [Elem "strong" None None [Expr (field a "patient")];
     Text " → "; Expr (field a "resource");
     Text " ("; Expr (field a "resource_type"); Text ")"].

Definition resource_card (res : value) (i : nat) : node :=
  Elem "div" (Some (field res "id"))
    (Some ("resource-card " ++ ToString (field res "status")))
    [Elem "h3" None None [Expr (field res "name")];
     Elem "p" None None [Text "Type: "; Expr (field res "type")];
     Elem "p" None None
       [Text "Status: ";
        Elem "span" None (Some ("status-" ++ ToString (field res "status")))
          [Expr (field res "status")]]].

Fixpoint each_from (f : value -> nat -> node) (i : nat) (items : list value)
    : list node :=
  match items with
  | [] => []
  | x :: rest => f x i :: each_from f (S i) rest
  end.

(** A batch is in arrival order when timestamps never decrease along it. *)
Definition in_arrival_order (requests : list Core.Request) : Prop :=
  StronglySorted (fun a b => (Core.arrival a <= Core.arrival b)%nat) requests.

Definition precedes (a b : Core.Request) : Prop :=
  Core.key_le a b = true.

Definition has_priority (p : Z) (r : Core.Request) : bool :=
  Core.priority r =? p.

(** A resource that [listAvailable(t)] offers. *)
Definition offered (t : Core.ResourceType) (x : Core.Resource) : bool :=
  Core.ResourceType_eqb (Core.resource_type x) t && Core.is_available x.

(** A queued request that passed validation. *)
Definition well_formed (r : Core.Request) : Prop :=
  1 <= Core.priority r <= 4 /\ 0 < Core.durationMinutes r.

(** The arguments of one [submitRequest]: name, type, priority, duration. *)
Definition submission : Type := (string * string * Z * Z)%type.

Definition submit (m : Core.Manager) (s : submission) : Core.Manager :=
  let '(name, type, prio, duration) := s in
  snd (Core.submitRequest m name type prio duration).

Definition submit_all (m : Core.Manager) (subs : list submission) : Core.Manager :=
  fold_left submit subs m.

Definition empty_manager (inv : list Core.Resource) : Core.Manager :=
  {| Core.inventory := inv; Core.queue := []; Core.next_id := 1%nat;
     Core.clock := 0%nat |}.

(** A batch of four requests with the priorities 3, 1, 2, 1, and an
    inventory with room for all of them. *)
Definition request_of (id : nat) (name : string) (t : Core.ResourceType)
    (prio : Z) (at_ : nat) : Core.Request :=
  {| Core.request_id := id; Core.patientName := name; Core.requested := t;
     Core.priority := prio; Core.durationMinutes := 30; Core.arrival := at_ |}.

Definition resource_of (id : nat) (t : Core.ResourceType) (name : string)
    (st : Core.ResourceStatus) : Core.Resource :=
  {| Core.resource_id := id; Core.resource_type := t;
     Core.resource_label := name; Core.resource_status := st |}.

Definition R1 : Core.Request := request_of 1 "Ann" Core.Bed 3 10.
Definition R2 : Core.Request := request_of 2 "Bob" Core.Doctor 1 11.
Definition R3 : Core.Request := request_of 3 "Cyd" Core.Bed 2 11.
Definition R4 : Core.Request := request_of 4 "Dee" Core.Doctor 1 12.

Definition ward : list Core.Resource :=
  [resource_of 7 Core.Doctor "Dr. Smith" Core.Available;
   resource_of 2 Core.Bed "Bed 2" Core.Available;
   resource_of 5 Core.Doctor "Dr. Jones" Core.Available;
   resource_of 1 Core.Bed "Bed 1" Core.Maintenance;
   resource_of 3 Core.Bed "Bed 3" Core.Available;
   resource_of 9 Core.OperatingRoom "OR 1" Core.Occupied].

(** A filled-in form, and replies of the REST layer. *)
Definition typed_in : list RequestForm.event :=
  [RequestForm.PatientNameChange "Ann";
   RequestForm.ResourceTypeChange "Doctor";
   RequestForm.PriorityChange "1";
   RequestForm.DurationChange "45"].

Definition created_reply : Api.response :=
  {| Api.status := 200;
     Api.json := Fulfilled (Obj [("id", Number (Int 7))]) |}.

Definition error_reply : Api.response :=
  {| Api.status := 400;
     Api.json := Fulfilled (Obj [("error", Str "Unknown algorithm")]) |}.

Definition rest_resource : value :=
  Obj [("id", Number (Int 1)); ("name", Str "Dr. Smith");
       ("type", Str "doctor"); ("status", Str "available")].

Definition resources_reply : Api.response :=
  {| Api.status := 200; Api.json := Fulfilled (Arr [rest_resource]) |}.

Definition rest_allocation_longer : value :=
  Obj [("patient", Str "John Doe"); ("resource", Str "Dr. Smith");
       ("resource_type", Str "doctor"); ("duration", Number (Int 90))].

Definition submissions : list submission :=
  [("Ann", "Bed", 2, 30); ("Bob", "Operating Room", 2, 30);
   ("Cyd", "Doctor", 9, 30); ("Dee", "Doctor", 1, 0)].

(** The same network with every response's status replaced by [st]. *)
Definition with_status (st : Z) (network : Api.request -> outcome Api.response)
    (r : Api.request) : outcome Api.response :=
  match network r with
  | Fulfilled res => Fulfilled {| Api.status := st; Api.json := Api.json res |}
  | Rejected e => Rejected e
  end.

(** A server that answers every request with one response. *)
Definition answering (res : Api.response) (r : Api.request) : outcome Api.response :=
  Fulfilled res.

(** An allocation with the field names of the specification, and one with
    the field names of the REST layer. *)
Definition spec_allocation : value :=
  Obj [("patientName", Str "Ann"); ("resourceLabel", Str "Bed 1");
       ("resourceType", Str "Bed"); ("durationMinutes", Number (Int 30))].

Definition rest_allocation : value :=
  Obj [("patient", Str "John Doe"); ("resource", Str "Dr. Smith");
       ("resource_type", Str "doctor"); ("duration", Number (Int 30))].

(** A resource with the field names of the specification. *)
Definition spec_resource : value :=
  Obj [("id", Number (Int 1)); ("type", Str "Doctor");
       ("label", Str "Dr. Smith"); ("status", Str "Available")].

(** A response "lacks an allocations array" when its [allocations] is not an
    array, whatever else it is. *)
Definition lacks_allocations_array (body : value) : Prop :=
  forall items, Get body "allocations" <> Fulfilled (Arr items).

(** [undefined] or [null]: the values whose properties cannot be read. *)
Definition nullish (v : value) : Prop :=
  v = Undefined \/ v = Null.

(** A request gets no usable reply when [fetch] rejects, the body is not
    JSON, or the body is [null]. *)
Definition no_reply (network : Api.request -> outcome Api.response)
    (r : Api.request) : Prop :=
  match network r with
  | Rejected _ => True
  | Fulfilled res =>
      match Api.json res with
      | Rejected _ => True
      | Fulfilled reply => nullish reply
      end
  end.

(** The last event of a sequence that [pick] selects, if any. *)
Fixpoint latest {A : Type} (pick : RequestForm.event -> option A)
    (es : list RequestForm.event) : option A :=
  match es with
  | [] => None
  | e :: rest =>
      match latest pick rest with
      | Some a => Some a
      | None => pick e
      end
  end.

Definition name_typed (e : RequestForm.event) : option string :=
  match e with
  | RequestForm.PatientNameChange v => Some v
  | _ => None
  end.

Definition type_chosen (e : RequestForm.event) : option string :=
  match e with
  | RequestForm.ResourceTypeChange v => Some v
  | _ => None
  end.

Definition priority_chosen (e : RequestForm.event) : option string :=
  match e with
  | RequestForm.PriorityChange v => Some v
  | _ => None
  end.

Definition duration_typed (e : RequestForm.event) : option string :=
  match e with
  | RequestForm.DurationChange v => Some v
  | _ => None
  end.



(** The index React is given as key of the [i]-th paragraph. *)
Definition index_key (i : nat) : option value :=
  Some (Number (Int (Z.of_nat i))).

(** Replies of the REST layer to a request it does not accept, and a
    network that is down. *)
Definition unprocessable_reply : Api.response :=
  {| Api.status := 422;
     Api.json := Fulfilled (Obj [("detail", Str "value is not a valid integer")]) |}.

Definition object_reply : Api.response :=
  {| Api.status := 200;
     Api.json := Fulfilled (Obj [("allocations", Obj [("count", Number (Int 2))])]) |}.

Definition offline (r : Api.request) : outcome Api.response :=
  Rejected (NetworkError "Failed to fetch").

Definition rest_allocations : list value :=
  [rest_allocation; rest_allocation_longer].



(* ===================================================================== *)
(** * Properties of the API client *)
(* ===================================================================== *)

Lemma sent_fetch_json (network : Api.request -> outcome Api.response) (r : Api.request) :
  Api.sent (await res <- Api.fetch network r ;; Api.lift (Api.json res))%async = [r].
Proof.
  unfold Api.sent, Api.then_, Api.fetch, Api.lift.
  destruct (network r); reflexivity.
Qed.

Lemma settled_fetch_json (network : Api.request -> outcome Api.response) (r : Api.request) :
  Api.settled (await res <- Api.fetch network r ;; Api.lift (Api.json res))%async
  = bind (network r) Api.json.
Proof.
  unfold Api.settled, Api.then_, Api.fetch, Api.lift, bind.
  destruct (network r); reflexivity.
Qed.

Lemma bind_with_status (st : Z) network (r : Api.request) :
  bind (with_status st network r) Api.json = bind (network r) Api.json.
Proof.
  unfold with_status, bind. destruct (network r); reflexivity.
Qed.

(** C10: none of [createRequest], [runScheduler], [getResources] looks at the
    HTTP status: each settles to what [json()] of the response settles to
    (the parsed body, or the parse error), and replacing the status of every
    response by any other status changes nothing. *)
Theorem C10_status_never_inspected :
  forall (network : Api.request -> outcome Api.response) (data alg : value) (st : Z),
    Api.settled (Api.createRequest network data)
      = bind (network (Api.createRequest_call data)) Api.json
    /\ Api.settled (Api.runScheduler network alg)
      = bind (network (Api.runScheduler_call alg)) Api.json
    /\ Api.settled (Api.getResources network)
      = bind (network Api.getResources_call) Api.json
    /\ Api.settled (Api.createRequest (with_status st network) data)
      = Api.settled (Api.createRequest network data)
    /\ Api.settled (Api.runScheduler (with_status st network) alg)
      = Api.settled (Api.runScheduler network alg)
    /\ Api.settled (Api.getResources (with_status st network))
      = Api.settled (Api.getResources network).
Proof.
  intros network data alg st.
  unfold Api.createRequest, Api.runScheduler, Api.getResources.
  rewrite !settled_fetch_json, !bind_with_status.
  repeat split; reflexivity.
Qed.

(* ===================================================================== *)
(** * Properties of the schedule panel *)
(* ===================================================================== *)

Lemma sent_run (network : Api.request -> outcome Api.response) (alg : value) :
  Api.sent (SchedulePanel.run network alg) = [Api.runScheduler_call alg].
Proof.
  unfold SchedulePanel.run, Api.runScheduler, Api.sent, Api.then_, Api.fetch,
    Api.lift, Api.ret.
  destruct (network _) as [res|e]; [|reflexivity].
  destruct (Api.json res) as [b|e]; [|reflexivity].
  destruct (Get b "allocations"); reflexivity.
Qed.

(** C1, as the code has it: a pass started from the panel sends exactly one
    request, a POST to [/schedule/<alg>], where [<alg>] is one of [fcfs],
    [priority], [rr]; each of the three is sent by some button, and the
    Round Robin button sends [rr]. *)
Theorem C1_panel_algorithms :
  forall (network : Api.request -> outcome Api.response) (b : SchedulePanel.button),
    In (SchedulePanel.onClick_alg b) panel_algorithms
    /\ Api.sent (SchedulePanel.run network (SchedulePanel.onClick_alg b))
       = [{| Api.url := "http://127.0.0.1:8000/schedule/"
                        ++ ToString (SchedulePanel.onClick_alg b);
             Api.method := "POST"; Api.headers := []; Api.body := None |}]
    /\ map SchedulePanel.onClick_alg SchedulePanel.buttons = panel_algorithms
    /\ SchedulePanel.onClick_alg SchedulePanel.RoundRobin = Str "rr".
Proof.
  intros network b. rewrite sent_run.
  destruct b; cbn; repeat split; auto.
Qed.

(** C1 as stated fails: the Round Robin button does not send [roundRobin],
    and what it sends is none of [fcfs], [priority], [roundRobin]. *)
Lemma C1_round_robin_is_not_roundRobin :
  SchedulePanel.onClick_alg SchedulePanel.RoundRobin <> Str "roundRobin"
  /\ ~ In (SchedulePanel.onClick_alg SchedulePanel.RoundRobin) spec_algorithms
  /\ Api.url (Api.runScheduler_call (SchedulePanel.onClick_alg SchedulePanel.RoundRobin))
     = "http://127.0.0.1:8000/schedule/rr".
Proof.
  repeat split.
  - discriminate.
  - cbn. intros [H|[H|[H|[]]]]; discriminate.
Qed.

(* ===================================================================== *)
(** * Properties of the request form *)
(* ===================================================================== *)

(** [handleSubmit] sends the form as it is, whatever it holds. *)
Lemma handleSubmit_sent (network : Api.request -> outcome Api.response)
    (f : RequestForm.form) :
  Api.sent (RequestForm.handleSubmit network f)
  = [Api.createRequest_call (RequestForm.form_value f)].
Proof.
  unfold RequestForm.handleSubmit, Api.createRequest, Api.sent, Api.then_,
    Api.fetch, Api.lift, Api.ret.
  destruct (network _) as [res|e]; [|reflexivity].
  destruct (Api.json res) as [b|e]; [|reflexivity].
  destruct (Get b "id"); reflexivity.
Qed.

Lemma handleSubmit_alert (network : Api.request -> outcome Api.response)
    (f : RequestForm.form) (res : Api.response) (reply id : value) :
  network (Api.createRequest_call (RequestForm.form_value f)) = Fulfilled res ->
  Api.json res = Fulfilled reply ->
  Get reply "id" = Fulfilled id ->
  Api.settled (RequestForm.handleSubmit network f)
  = Fulfilled ("Request submitted! ID = " ++ ToString id).
Proof.
  intros Hnet Hjson Hid.
  unfold RequestForm.handleSubmit, Api.createRequest, Api.settled, Api.then_,
    Api.fetch, Api.lift, Api.ret.
  rewrite Hnet, Hjson, Hid. reflexivity.
Qed.

Lemma JSON_stringify_number (n : number) :
  JSON_stringify (Number n) = Some (json_number n).
Proof. destruct n; reflexivity. Qed.

Lemma form_body (f : RequestForm.form) :
  Api.body (Api.createRequest_call (RequestForm.form_value f)) = Some (form_json f).
Proof.
  destruct f as [name type [|p] [|d]]; reflexivity.
Qed.

Lemma parseInt_priority_option (v : string) :
  In v RequestForm.priority_option_values -> In (parseInt v) priority_levels.
Proof.
  cbn. intros [<-|[<-|[<-|[<-|[]]]]]; cbn; auto.
Qed.

Lemma onChange_within_options (f : RequestForm.form) (e : RequestForm.event) :
  within_options f -> RequestForm.from_dom e ->
  within_options (RequestForm.onChange f e).
Proof.
  intros [Ht Hp] He. destruct e as [v|v|v|v]; split; cbn [RequestForm.onChange
    RequestForm.resource_type RequestForm.priority]; auto.
  apply parseInt_priority_option, He.
Qed.

Lemma fold_onChange_within_options (es : list RequestForm.event) :
  forall f, within_options f -> Forall RequestForm.from_dom es ->
            within_options (fold_left RequestForm.onChange es f).
Proof.
  induction es as [|e es IH]; intros f Hf Hes; [exact Hf|].
  inversion Hes; subst. cbn [fold_left].
  apply IH; [apply onChange_within_options|]; assumption.
Qed.

Lemma form_after_within_options (es : list RequestForm.event) :
  Forall RequestForm.from_dom es -> within_options (RequestForm.form_after es).
Proof.
  apply fold_onChange_within_options. split; cbn; auto.
Qed.

Lemma form_after_app (es : list RequestForm.event) (e : RequestForm.event) :
  RequestForm.form_after (es ++ [e])
  = RequestForm.onChange (RequestForm.form_after es) e.
Proof.
  unfold RequestForm.form_after. rewrite fold_left_app. reflexivity.
Qed.

(** C2, as the code has it: a submission sends exactly one create request,
    whose body is the JSON text of the form with the members
    [patient_name] (a string), [resource_type] (one of Bed, Doctor,
    Operating Room), [priority] (one of 1, 2, 3, 4) and [duration] (the
    number last parsed from the duration field, [null] when that is NaN);
    when the reply is a JSON value with an [id], the alert shows it. *)
Theorem C2_create_request_payload :
  forall (network : Api.request -> outcome Api.response)
         (es : list RequestForm.event) (res : Api.response) (reply id : value),
    Forall RequestForm.from_dom es ->
    network (Api.createRequest_call (RequestForm.form_value (RequestForm.form_after es)))
      = Fulfilled res ->
    Api.json res = Fulfilled reply ->
    Get reply "id" = Fulfilled id ->
    let f := RequestForm.form_after es in
    Api.sent (RequestForm.handleSubmit network f)
      = [{| Api.url := "http://127.0.0.1:8000/request";
            Api.method := "POST";
            Api.headers := [("Content-Type", "application/json")];
            Api.body := Some (form_json f) |}]
    /\ In (RequestForm.resource_type f) ["Bed"; "Doctor"; "Operating Room"]
    /\ In (RequestForm.priority f) [Int 1; Int 2; Int 3; Int 4]
    /\ Api.settled (RequestForm.handleSubmit network f)
       = Fulfilled ("Request submitted! ID = " ++ ToString id).
Proof.
  intros network es res reply id Hdom Hnet Hjson Hid f.
  destruct (form_after_within_options es Hdom) as [Ht Hp].
  repeat split.
  - rewrite handleSubmit_sent. pose proof (form_body f) as Hb.
    unfold Api.createRequest_call in *. cbn [Api.body] in Hb. rewrite Hb.
    reflexivity.
  - exact Ht.
  - exact Hp.
  - eapply handleSubmit_alert; eassumption.
Qed.

(** C2 as stated fails: after choosing the third resource type and typing
    -5 as duration, the form holds a resource type that is none of Bed,
    Doctor, OperatingRoom and a duration that is not positive, and that is
    the payload sent. *)
Lemma C2_payload_outside_spec :
  Forall RequestForm.from_dom
    [RequestForm.ResourceTypeChange "Operating Room"; RequestForm.DurationChange "-5"]
  /\ ~ In (RequestForm.resource_type
             (RequestForm.form_after
                [RequestForm.ResourceTypeChange "Operating Room";
                 RequestForm.DurationChange "-5"])) spec_resource_types
  /\ ~ positive_integer
         (RequestForm.duration
            (RequestForm.form_after
               [RequestForm.ResourceTypeChange "Operating Room";
                RequestForm.DurationChange "-5"]))
  /\ ~ spec_payload
         (RequestForm.form_after
            [RequestForm.ResourceTypeChange "Operating Room";
             RequestForm.DurationChange "-5"])
  /\ form_json
       (RequestForm.form_after
          [RequestForm.ResourceTypeChange "Operating Room";
           RequestForm.DurationChange "-5"])
     = "{" ++ quote "patient_name" ++ ":" ++ quote "" ++ ","
           ++ quote "resource_type" ++ ":" ++ quote "Operating Room" ++ ","
           ++ quote "priority" ++ ":2," ++ quote "duration" ++ ":-5}".
Proof.
  assert (Hd : ~ positive_integer (Int (-5))) by (cbn; lia).
  split; [|split; [|split; [|split]]].
  - constructor; [|constructor; [|constructor]]; cbn; auto.
  - cbn. intros [H|[H|[H|[]]]]; discriminate.
  - exact Hd.
  - intros (_ & _ & H). exact (Hd H).
  - reflexivity.
Qed.

(** C3: the priority select offers exactly Critical=1, High=2, Medium=3,
    Low=4, the value growing as the level gets less urgent; whatever is
    chosen and typed, the priority of the form, and so of the payload
    submitted, is one of 1, 2, 3, 4. *)
Theorem C3_priority_levels :
  forall (network : Api.request -> outcome Api.response) (es : list RequestForm.event),
    Forall RequestForm.from_dom es ->
    RequestForm.priority_options
      = [(Int 1, "Critical"); (Int 2, "High"); (Int 3, "Medium"); (Int 4, "Low")]
    /\ map parseInt RequestForm.priority_option_values = [Int 1; Int 2; Int 3; Int 4]
    /\ StronglySorted Z.lt
         (flat_map (fun o => match fst o with Int z => [z] | NaN => [] end)
                   RequestForm.priority_options)
    /\ In (RequestForm.priority (RequestForm.form_after es)) [Int 1; Int 2; Int 3; Int 4]
    /\ Get (RequestForm.form_value (RequestForm.form_after es)) "priority"
       = Fulfilled (Number (RequestForm.priority (RequestForm.form_after es)))
    /\ Api.sent (RequestForm.handleSubmit network (RequestForm.form_after es))
       = [Api.createRequest_call (RequestForm.form_value (RequestForm.form_after es))].
Proof.
  intros network es Hdom.
  destruct (form_after_within_options es Hdom) as [_ Hp].
  repeat split; try reflexivity; try assumption.
  - cbn. repeat constructor.
  - apply handleSubmit_sent.
Qed.

(** C8: the form validates nothing.  Once the duration field is cleared its
    value is the empty string, [parseInt] gives NaN, and the body sent has
    [null] for the duration; an empty patient name goes out as the empty
    string; and every state of the form is sent as it is. *)
Theorem C8_no_client_side_validation :
  forall (network : Api.request -> outcome Api.response) (es : list RequestForm.event),
    parseInt "" = NaN
    /\ JSON_stringify (Number NaN) = Some "null"
    /\ (let f := RequestForm.form_after (es ++ [RequestForm.DurationChange ""]) in
        RequestForm.duration f = NaN
        /\ Api.sent (RequestForm.handleSubmit network f)
           = [Api.createRequest_call (RequestForm.form_value f)]
        /\ Api.body (Api.createRequest_call (RequestForm.form_value f))
           = Some ("{" ++ join ","
                [quote "patient_name" ++ ":" ++ quote (RequestForm.patient_name f);
                 quote "resource_type" ++ ":" ++ quote (RequestForm.resource_type f);
                 quote "priority" ++ ":" ++ json_number (RequestForm.priority f);
                 quote "duration" ++ ":" ++ "null"] ++ "}"))
    /\ (let f := RequestForm.form_after (es ++ [RequestForm.PatientNameChange ""]) in
        RequestForm.patient_name f = ""
        /\ Api.sent (RequestForm.handleSubmit network f)
           = [Api.createRequest_call (RequestForm.form_value f)]
        /\ Api.body (Api.createRequest_call (RequestForm.form_value f))
           = Some ("{" ++ join ","
                [quote "patient_name" ++ ":" ++ quote "";
                 quote "resource_type" ++ ":" ++ quote (RequestForm.resource_type f);
                 quote "priority" ++ ":" ++ json_number (RequestForm.priority f);
                 quote "duration" ++ ":" ++ json_number (RequestForm.duration f)] ++ "}"))
    /\ forall f, Api.sent (RequestForm.handleSubmit network f)
                 = [Api.createRequest_call (RequestForm.form_value f)].
Proof.
  intros network es.
  split; [reflexivity|]. split; [reflexivity|].
  split; [|split].
  - cbv zeta. rewrite form_after_app, handleSubmit_sent, form_body.
    repeat split.
  - cbv zeta. rewrite form_after_app, handleSubmit_sent, form_body.
    repeat split.
  - intro f. apply handleSubmit_sent.
Qed.

(* ===================================================================== *)
(** * Properties of the two lists rendered *)
(* ===================================================================== *)

Lemma Get_defined (a : value) (k : string) :
  defined a -> Get a k = Fulfilled (field a k).
Proof.
  intros [Hu Hn]. unfold field.
  destruct a; try reflexivity; congruence.
Qed.

Lemma row_defined (a : value) (i : nat) :
  defined a -> AllocationResults.row a i = Fulfilled (allocation_row a i).
Proof.
  intro Ha. unfold AllocationResults.row.
  rewrite !(Get_defined a _ Ha). reflexivity.
Qed.

Lemma card_defined (res : value) (i : nat) :
  defined res -> ResourceList.card res i = Fulfilled (resource_card res i).
Proof.
  intro Ha. unfold ResourceList.card.
  rewrite !(Get_defined res _ Ha). reflexivity.
Qed.

(** A callback that never throws on the items maps all of them, in order. *)
Lemma map_from_each (f : value -> nat -> outcome node) (g : value -> nat -> node)
    (items : list value) :
  (forall a i, defined a -> f a i = Fulfilled (g a i)) ->
  Forall defined items ->
  forall i, map_from f i items = Fulfilled (each_from g i items).
Proof.
  intros Hfg Hall. induction Hall as [|a items Ha _ IH]; intro i.
  - reflexivity.
  - cbn [map_from each_from]. rewrite (Hfg a i Ha). cbn [bind].
    rewrite IH. reflexivity.
Qed.

Lemma each_from_agree (g : value -> nat -> node) (P : value -> value -> Prop)
    (items items' : list value) :
  (forall a b i, P a b -> g a i = g b i) ->
  Forall2 P items items' ->
  forall i, each_from g i items = each_from g i items'.
Proof.
  intros Hg Hall. induction Hall as [|a b l l' Hab _ IH]; intro i.
  - reflexivity.
  - cbn [each_from]. rewrite (Hg a b i Hab), IH. reflexivity.
Qed.

Lemma exprs_each_from (g : value -> nat -> node) (ks : list string)
    (items : list value) :
  (forall a i, exprs (g a i) = map (field a) ks) ->
  forall i, flat_map exprs (each_from g i items)
            = flat_map (fun a => map (field a) ks) items.
Proof.
  intro Hg. induction items as [|a items IH]; intro i.
  - reflexivity.
  - cbn [each_from flat_map]. rewrite Hg, IH. reflexivity.
Qed.

Lemma allocation_row_agree (a b : value) (i : nat) :
  agree_on allocation_fields a b -> allocation_row a i = allocation_row b i.
Proof.
  intro H. unfold allocation_row.
  rewrite (H "patient"), (H "resource"), (H "resource_type");
    cbn; auto.
Qed.

Lemma AllocationResults_nonempty (items : list value) :
  items <> [] -> Forall defined items ->
  AllocationResults.AllocationResults (Arr items)
  = Fulfilled
      (Elem "div" None None
         [Elem "h2" None None [Text "Scheduling Output"];
          Items (each_from allocation_row 0 items)]).
Proof.
  intros Hne Hall. unfold AllocationResults.AllocationResults.
  cbn [Get String.eqb Ascii.eqb Bool.eqb bind ToBoolean].
  destruct items as [|a items]; [congruence|].
  replace (Z.of_nat (Datatypes.length (a :: items)) =? 0) with false
    by (symmetry; apply Z.eqb_neq; cbn [Datatypes.length]; lia).
  cbn [negb call_map].
  rewrite (map_from_each _ allocation_row (a :: items) row_defined Hall).
  reflexivity.
Qed.

(** C5, as the code has it: for a non-empty list of allocations (none of
    them null), the panel shows one paragraph per element, in order, made
    of the element's fields [patient], [resource] and [resource_type]; no
    other field is read, so lists that agree on these three fields render
    the same. *)
Theorem C5_allocation_fields_rendered :
  forall (items items' : list value),
    items <> [] ->
    Forall defined items ->
    Forall defined items' ->
    Forall2 (agree_on allocation_fields) items items' ->
    AllocationResults.AllocationResults (Arr items)
      = Fulfilled
          (Elem "div" None None
             [Elem "h2" None None [Text "Scheduling Output"];
              Items (each_from allocation_row 0 items)])
    /\ shown (AllocationResults.AllocationResults (Arr items))
       = flat_map (fun a => [field a "patient"; field a "resource";
                             field a "resource_type"]) items
    /\ AllocationResults.AllocationResults (Arr items')
       = AllocationResults.AllocationResults (Arr items).
Proof.
  intros items items' Hne Hall Hall' Hagree.
  assert (Hne' : items' <> []).
  { intro E. subst. inversion Hagree. congruence. }
  rewrite (AllocationResults_nonempty items Hne Hall).
  rewrite (AllocationResults_nonempty items' Hne' Hall').
  split; [reflexivity|]. split.
  - cbn [shown exprs flat_map app]. rewrite app_nil_r.
    apply (exprs_each_from allocation_row allocation_fields). reflexivity.
  - rewrite (each_from_agree allocation_row _ items items' allocation_row_agree Hagree).
    reflexivity.
Qed.

(** C5 as stated fails: of an allocation with the fields [patientName],
    [resourceLabel], [resourceType], [durationMinutes] nothing is shown, and
    of an allocation with the fields the panel reads the duration is not
    shown. *)
Lemma C5_spec_fields_not_rendered :
  shown (AllocationResults.AllocationResults (Arr [spec_allocation]))
    = [Undefined; Undefined; Undefined]
  /\ (forall k, In k spec_allocation_fields ->
        ~ In (field spec_allocation k)
             (shown (AllocationResults.AllocationResults (Arr [spec_allocation]))))
  /\ shown (AllocationResults.AllocationResults (Arr [rest_allocation]))
     = [Str "John Doe"; Str "Dr. Smith"; Str "doctor"]
  /\ ~ In (field rest_allocation "duration")
          (shown (AllocationResults.AllocationResults (Arr [rest_allocation]))).
Proof.
  split; [reflexivity|]. split; [|split; [reflexivity|]].
  - intros k Hk. cbn in Hk.
    destruct Hk as [<-|[<-|[<-|[<-|[]]]]]; cbn;
      intros [H|[H|[H|[]]]]; discriminate.
  - cbn. intros [H|[H|[H|[]]]]; discriminate.
Qed.

Lemma ResourceList_defined (resources : list value) :
  Forall defined resources ->
  ResourceList.ResourceList (Arr resources)
  = Fulfilled
      (Elem "div" None (Some "resource-panel")
         [Elem "h2" None None [Text "Hospital Resources"];
          Elem "button" None (Some "refresh-btn") [Text "Refresh"];
          Elem "div" None (Some "resource-grid")
            [Items (each_from resource_card 0 resources)]]).
Proof.
  intro Hall. unfold ResourceList.ResourceList. cbn [call_map].
  rewrite (map_from_each _ resource_card resources card_defined Hall).
  reflexivity.
Qed.

Lemma refreshed_data (network : Api.request -> outcome Api.response)
    (res : Api.response) (data old : value) :
  network Api.getResources_call = Fulfilled res ->
  Api.json res = Fulfilled data ->
  ResourceList.refreshed network old = data.
Proof.
  intros Hnet Hjson.
  unfold ResourceList.refreshed, ResourceList.refresh, Api.getResources.
  rewrite settled_fetch_json, Hnet. cbn [bind]. rewrite Hjson. reflexivity.
Qed.

Lemma map_each_from {A : Type} (h : node -> A) (g : value -> nat -> node)
    (h' : value -> A) (items : list value) :
  (forall a i, h (g a i) = h' a) ->
  forall i, map h (each_from g i items) = map h' items.
Proof.
  intro Hg. induction items as [|a items IH]; intro i.
  - reflexivity.
  - cbn [each_from map]. rewrite Hg, IH. reflexivity.
Qed.

(** C6, as the code has it: the list the query-resources operation returns
    becomes the panel's state as it is, and for a list of resources (none
    of them null) the panel shows one card per element, in order, keyed by
    the element's [id], classed by its [status], and showing its [name],
    [type] and [status]. *)
Theorem C6_resource_fields_rendered :
  forall (network : Api.request -> outcome Api.response) (res : Api.response)
         (resources : list value) (old : value),
    network Api.getResources_call = Fulfilled res ->
    Api.json res = Fulfilled (Arr resources) ->
    Forall defined resources ->
    ResourceList.refreshed network old = Arr resources
    /\ ResourceList.ResourceList (ResourceList.refreshed network old)
       = Fulfilled
           (Elem "div" None (Some "resource-panel")
              [Elem "h2" None None [Text "Hospital Resources"];
               Elem "button" None (Some "refresh-btn") [Text "Refresh"];
               Elem "div" None (Some "resource-grid")
                 [Items (each_from resource_card 0 resources)]])
    /\ shown (ResourceList.ResourceList (ResourceList.refreshed network old))
       = flat_map (fun r => [field r "name"; field r "type"; field r "status"])
                  resources
    /\ map key_of (each_from resource_card 0 resources)
       = map (fun r => Some (field r "id")) resources
    /\ map className_of (each_from resource_card 0 resources)
       = map (fun r => Some ("resource-card " ++ ToString (field r "status")))
             resources.
Proof.
  intros network res resources old Hnet Hjson Hall.
  rewrite (refreshed_data network res (Arr resources) old Hnet Hjson).
  rewrite (ResourceList_defined resources Hall).
  split; [reflexivity|]. split; [reflexivity|]. split; [|split].
  - cbn [shown exprs flat_map app]. rewrite !app_nil_r.
    apply (exprs_each_from resource_card resource_fields). reflexivity.
  - apply (map_each_from key_of). reflexivity.
  - apply (map_each_from className_of). reflexivity.
Qed.

(** C6 as stated fails: of a resource with the fields [id], [type], [label],
    [status] the label is not shown; the heading of its card shows the
    missing [name], that is [undefined]. *)
Lemma C6_label_not_rendered :
  shown (ResourceList.ResourceList (Arr [spec_resource]))
    = [Undefined; Str "Doctor"; Str "Available"]
  /\ field spec_resource "label" = Str "Dr. Smith"
  /\ ~ In (field spec_resource "label")
          (shown (ResourceList.ResourceList (Arr [spec_resource]))).
Proof.
  split; [reflexivity|]. split; [reflexivity|].
  cbn. intros [H|[H|[H|[]]]]; discriminate.
Qed.

(* ===================================================================== *)
(** * The allocation list after a scheduler run *)
(* ===================================================================== *)

Lemma run_settled (network : Api.request -> outcome Api.response) (alg : value)
    (res : Api.response) (reply a : value) :
  network (Api.runScheduler_call alg) = Fulfilled res ->
  Api.json res = Fulfilled reply ->
  Get reply "allocations" = Fulfilled a ->
  Api.settled (SchedulePanel.run network alg) = Fulfilled (or_else a (Arr [])).
Proof.
  intros Hnet Hjson Ha.
  unfold SchedulePanel.run, Api.runScheduler, Api.settled, Api.then_,
    Api.fetch, Api.lift, Api.ret.
  rewrite Hnet, Hjson, Ha. reflexivity.
Qed.

(** The empty-state message is rendered for the empty list and for no
    other list. *)
Lemma empty_state_iff (items : list value) :
  AllocationResults.AllocationResults (Arr items)
    = Fulfilled AllocationResults.empty_state
  <-> items = [].
Proof.
  split.
  - destruct items as [|a items]; [reflexivity|]. intro H. exfalso.
    unfold AllocationResults.AllocationResults in H.
    cbn [Get String.eqb Ascii.eqb Bool.eqb bind ToBoolean] in H.
    replace (Z.of_nat (Datatypes.length (a :: items)) =? 0) with false in H
      by (symmetry; apply Z.eqb_neq; cbn [Datatypes.length]; lia).
    cbn [negb] in H.
    destruct (call_map "allocations" (Arr (a :: items)) AllocationResults.row);
      cbn [bind] in H; discriminate.
  - intros ->. reflexivity.
Qed.

(** C9, as the code has it: when the reply to a scheduler run is a JSON
    value other than null whose [allocations] is missing or falsy (an
    error-shaped body, for one), the list displayed becomes the empty list;
    an [allocations] array is taken as it is; either way
    [AllocationResults] receives a list, and it renders the empty-state
    message exactly when that list is empty. *)
Theorem C9_missing_allocations_give_empty_list :
  forall (network : Api.request -> outcome Api.response) (b : SchedulePanel.button)
         (old : value) (res : Api.response) (reply a : value),
    network (Api.runScheduler_call (SchedulePanel.onClick_alg b)) = Fulfilled res ->
    Api.json res = Fulfilled reply ->
    Get reply "allocations" = Fulfilled a ->
    ToBoolean a = false \/ (exists items, a = Arr items) ->
    exists items,
      SchedulePanel.onClick network b old = Arr items
      /\ (ToBoolean a = false -> items = [])
      /\ (a = Arr items \/ ToBoolean a = false)
      /\ (AllocationResults.AllocationResults (SchedulePanel.onClick network b old)
            = Fulfilled AllocationResults.empty_state
          <-> items = []).
Proof.
  intros network b old res reply a Hnet Hjson Ha Hshape.
  assert (Hclick : SchedulePanel.onClick network b old = or_else a (Arr [])).
  { unfold SchedulePanel.onClick.
    rewrite (run_settled network _ res reply a Hnet Hjson Ha). reflexivity. }
  rewrite Hclick. destruct Hshape as [Hfalsy|[items ->]].
  - exists []. unfold or_else. rewrite Hfalsy.
    repeat split; auto.
  - exists items. unfold or_else. cbn [ToBoolean].
    split; [reflexivity|]. split; [discriminate|]. split; [auto|].
    apply empty_state_iff.
Qed.

(** C9 as stated fails: a reply whose [allocations] is a string lacks an
    allocations array, yet that string, not the empty list, becomes the
    state, and [AllocationResults] throws on it. *)
Lemma C9_truthy_non_array_is_kept :
  lacks_allocations_array (Obj [("allocations", Str "none")])
  /\ SchedulePanel.onClick
       (answering {| Api.status := 200;
                     Api.json := Fulfilled (Obj [("allocations", Str "none")]) |})
       SchedulePanel.FCFS (Arr [])
     = Str "none"
  /\ AllocationResults.AllocationResults (Str "none")
     = Rejected (TypeError "allocations.map is not a function").
Proof.
  split; [|split; reflexivity].
  intros items H. discriminate.
Qed.

(* ===================================================================== *)
(** * Submission to the core *)
(* ===================================================================== *)

Lemma submitRequest_valid (m : Core.Manager) (name type : string)
    (prio duration : Z) (t : Core.ResourceType) :
  Core.ResourceType_of_string type = Some t ->
  1 <= prio <= 4 -> 0 < duration ->
  exists r,
    Core.submitRequest m name type prio duration
    = (Core.Created r,
       {| Core.inventory := Core.inventory m;
          Core.queue := (Core.queue m ++ [r])%list;
          Core.next_id := S (Core.next_id m);
          Core.clock := S (Core.clock m) |})
    /\ Core.request_id r = Core.next_id m
    /\ Core.arrival r = Core.clock m
    /\ well_formed r.
Proof.
  intros Ht Hp Hd. unfold Core.submitRequest. rewrite Ht.
  replace ((1 <=? prio) && (prio <=? 4)) with true
    by (symmetry; apply andb_true_iff; split; apply Z.leb_le; lia).
  replace (duration <=? 0) with false by (symmetry; apply Z.leb_gt; lia).
  cbn [negb]. eexists. split; [reflexivity|].
  repeat split; cbn; lia.
Qed.

Lemma submitRequest_invalid (m : Core.Manager) (name type : string)
    (prio duration : Z) :
  Core.invalid type prio duration ->
  exists f,
    Core.submitRequest m name type prio duration = (Core.ValidationError f, m)
    /\ Core.field_fails f type prio duration.
Proof.
  intros [f Hf]. unfold Core.submitRequest.
  destruct (Core.ResourceType_of_string type) as [t|] eqn:Ht.
  - destruct ((1 <=? prio) && (prio <=? 4)) eqn:Hp; cbn [negb].
    + apply andb_true_iff in Hp. destruct Hp as [H1 H4].
      apply Z.leb_le in H1, H4.
      destruct (duration <=? 0) eqn:Hd.
      * exists Core.durationMinutes_field. split; [reflexivity|].
        apply Z.leb_le in Hd. exact Hd.
      * apply Z.leb_gt in Hd. exfalso.
        destruct f; cbn in Hf; [congruence|lia|lia].
    + exists Core.priority_field. split; [reflexivity|].
      apply andb_false_iff in Hp. cbn.
      destruct Hp as [Hp|Hp]; apply Z.leb_gt in Hp; lia.
  - exists Core.resourceType_field. split; [reflexivity|exact Ht].
Qed.

Lemma submit_keeps_well_formed (m : Core.Manager) (s : submission) :
  Forall well_formed (Core.queue m) ->
  Forall well_formed (Core.queue (submit m s)).
Proof.
  intro Hq. destruct s as [[[name type] prio] duration].
  unfold submit, Core.submitRequest.
  destruct (Core.ResourceType_of_string type) as [t|]; [|exact Hq].
  destruct ((1 <=? prio) && (prio <=? 4)) eqn:Hp; cbn [negb]; [|exact Hq].
  destruct (duration <=? 0) eqn:Hd; [exact Hq|].
  cbn [snd Core.queue]. apply Forall_app. split; [exact Hq|].
  constructor; [|constructor].
  apply andb_true_iff in Hp. destruct Hp as [H1 H4].
  apply Z.leb_le in H1, H4. apply Z.leb_gt in Hd.
  repeat split; cbn; lia.
Qed.

Lemma submit_all_well_formed (subs : list submission) :
  forall m, Forall well_formed (Core.queue m) ->
            Forall well_formed (Core.queue (submit_all m subs)).
Proof.
  induction subs as [|s subs IH]; intros m Hq; [exact Hq|].
  cbn [submit_all fold_left]. apply IH, submit_keeps_well_formed, Hq.
Qed.

(** C7: a submission with an unknown resourceType, a priority outside 1-4
    or a non-positive duration is answered at once with a ValidationError
    that names a field that did fail, and the manager, its queue included,
    is left as it was; after any sequence of submissions the queue holds
    only requests with a priority in 1-4 and a positive duration. *)
Theorem C7_invalid_submission_rejected :
  forall (m : Core.Manager) (name type : string) (prio duration : Z)
         (inv : list Core.Resource) (subs : list submission),
    Core.invalid type prio duration ->
    (exists f,
        Core.submitRequest m name type prio duration = (Core.ValidationError f, m)
        /\ Core.field_fails f type prio duration)
    /\ Core.queue (snd (Core.submitRequest m name type prio duration)) = Core.queue m
    /\ Forall well_formed (Core.queue (submit_all (empty_manager inv) subs)).
Proof.
  intros m name type prio duration inv subs Hinv.
  destruct (submitRequest_invalid m name type prio duration Hinv) as (f & Hf & Hfail).
  split; [exists f; split; assumption|].
  split; [rewrite Hf; reflexivity|].
  apply submit_all_well_formed. constructor.
Qed.

(* ===================================================================== *)
(** * The Priority scheduler of the core *)
(* ===================================================================== *)

Section StableSort.

Lemma key_le_total (a b : Core.Request) :
  Core.key_le a b = false -> precedes b a.
Proof.
  unfold precedes, Core.key_le. intro H.
  apply orb_false_iff in H. destruct H as [Hlt Heq].
  apply Z.ltb_ge in Hlt.
  apply orb_true_iff.
  destruct (Z.eq_dec (Core.priority a) (Core.priority b)) as [E|NE].
  - right. rewrite E in Heq. rewrite Z.eqb_refl in Heq. cbn in Heq.
    apply Nat.leb_gt in Heq. apply andb_true_iff. split.
    + apply Z.eqb_eq. lia.
    + apply Nat.leb_le. lia.
  - left. apply Z.ltb_lt. lia.
Qed.

Lemma precedes_trans (a b c : Core.Request) :
  precedes a b -> precedes b c -> precedes a c.
Proof.
  unfold precedes, Core.key_le. intros Hab Hbc.
  apply orb_true_iff in Hab. apply orb_true_iff in Hbc.
  apply orb_true_iff.
  destruct Hab as [Hab|Hab]; destruct Hbc as [Hbc|Hbc];
    repeat match goal with
           | H : _ && _ = true |- _ => apply andb_true_iff in H; destruct H
           | H : (_ <? _) = true |- _ => apply Z.ltb_lt in H
           | H : (_ =? _) = true |- _ => apply Z.eqb_eq in H
           | H : (_ <=? _)%nat = true |- _ => apply Nat.leb_le in H
           end.
  - left. apply Z.ltb_lt. lia.
  - left. apply Z.ltb_lt. lia.
  - left. apply Z.ltb_lt. lia.
  - right. apply andb_true_iff. split;
      [apply Z.eqb_eq|apply Nat.leb_le]; lia.
Qed.

Lemma insert_by_key_permutation (r : Core.Request) (l : list Core.Request) :
  Permutation (r :: l) (Core.insert_by_key r l).
Proof.
  induction l as [|x l IH]; cbn [Core.insert_by_key].
  - apply Permutation_refl.
  - destruct (Core.key_le r x).
    + apply Permutation_refl.
    + eapply perm_trans; [apply perm_swap|]. apply perm_skip, IH.
Qed.

Lemma sort_by_priority_permutation (l : list Core.Request) :
  Permutation l (Core.sort_by_priority l).
Proof.
  induction l as [|x l IH]; cbn.
  - apply perm_nil.
  - eapply perm_trans; [apply perm_skip, IH|].
    apply insert_by_key_permutation.
Qed.

Lemma insert_by_key_sorted (r : Core.Request) (l : list Core.Request) :
  StronglySorted precedes l -> StronglySorted precedes (Core.insert_by_key r l).
Proof.
  induction 1 as [|x l Hs IH Hx]; cbn [Core.insert_by_key].
  - repeat constructor.
  - destruct (Core.key_le r x) eqn:E.
    + constructor; [constructor; assumption|].
      constructor; [exact E|].
      eapply Forall_impl; [|exact Hx].
      intros y Hy. exact (precedes_trans r x y E Hy).
    + constructor; [exact IH|].
      eapply Permutation_Forall; [apply insert_by_key_permutation|].
      constructor; [apply key_le_total, E|exact Hx].
Qed.

Lemma sort_by_priority_sorted (l : list Core.Request) :
  StronglySorted precedes (Core.sort_by_priority l).
Proof.
  induction l as [|x l IH]; cbn.
  - constructor.
  - apply insert_by_key_sorted, IH.
Qed.

(** Inserting a request that arrived no later than all of [l] puts it
    before every request of its priority. *)
Lemma filter_insert_by_key (p : Z) (r : Core.Request) (l : list Core.Request) :
  Forall (fun y => (Core.arrival r <= Core.arrival y)%nat) l ->
  filter (has_priority p) (Core.insert_by_key r l)
  = filter (has_priority p) (r :: l).
Proof.
  induction 1 as [|y l Hy _ IH]; [reflexivity|].
  cbn [Core.insert_by_key]. destruct (Core.key_le r y) eqn:E; [reflexivity|].
  cbn [filter] in *. rewrite IH.
  unfold Core.key_le in E. apply orb_false_iff in E. destruct E as [Hlt Heq].
  apply Z.ltb_ge in Hlt. apply andb_false_iff in Heq.
  assert (Hne : Core.priority r <> Core.priority y).
  { destruct Heq as [Heq|Heq];
      [apply Z.eqb_neq in Heq; exact Heq|apply Nat.leb_gt in Heq; lia]. }
  unfold has_priority.
  destruct (Core.priority r =? p) eqn:Er; [|reflexivity].
  destruct (Core.priority y =? p) eqn:Ey; [|reflexivity].
  apply Z.eqb_eq in Er, Ey. lia.
Qed.

(** Stability: among the requests of one priority, a batch in arrival
    order keeps its order. *)
Lemma sort_by_priority_stable (p : Z) (l : list Core.Request) :
  in_arrival_order l ->
  filter (has_priority p) (Core.sort_by_priority l) = filter (has_priority p) l.
Proof.
  induction 1 as [|x l _ IH Hx]; [reflexivity|].
  cbn [Core.sort_by_priority fold_right].
  fold (Core.sort_by_priority l).
  rewrite filter_insert_by_key.
  - cbn [filter]. rewrite IH. reflexivity.
  - eapply Permutation_Forall; [apply sort_by_priority_permutation|exact Hx].
Qed.

End StableSort.

Section Ample.

Lemma insert_by_id_permutation (x : Core.Resource) (l : list Core.Resource) :
  Permutation (x :: l) (Core.insert_by_id x l).
Proof.
  induction l as [|y l IH]; cbn [Core.insert_by_id].
  - apply Permutation_refl.
  - destruct (Core.resource_id x <=? Core.resource_id y)%nat.
    + apply Permutation_refl.
    + eapply perm_trans; [apply perm_swap|]. apply perm_skip, IH.
Qed.

Lemma sort_by_id_permutation (l : list Core.Resource) :
  Permutation l (Core.sort_by_id l).
Proof.
  induction l as [|x l IH]; cbn.
  - apply perm_nil.
  - eapply perm_trans; [apply perm_skip, IH|].
    apply insert_by_id_permutation.
Qed.

Lemma supply_length (t : Core.ResourceType) (inv : list Core.Resource) :
  Core.supply t inv = List.length (filter (offered t) inv).
Proof.
  unfold Core.supply, Core.listAvailable. symmetry.
  apply Permutation_length, sort_by_id_permutation.
Qed.

Lemma listAvailable_In (t : Core.ResourceType) (inv : list Core.Resource)
    (x : Core.Resource) :
  In x (Core.listAvailable t inv) ->
  In x inv /\ Core.resource_type x = t /\ Core.is_available x = true.
Proof.
  intro H. unfold Core.listAvailable in H.
  apply (Permutation_in _ (Permutation_sym (sort_by_id_permutation _))) in H.
  apply filter_In in H. destruct H as [Hin Hoff].
  apply andb_true_iff in Hoff. destruct Hoff as [Ht Ha].
  repeat split; try assumption.
  destruct (Core.resource_type x), t; cbn in Ht; congruence.
Qed.

Lemma reserve_ids (id : nat) (inv : list Core.Resource) :
  map Core.resource_id (Core.reserve id inv) = map Core.resource_id inv.
Proof.
  unfold Core.reserve. rewrite map_map. apply map_ext.
  intro x. destruct (_ && _); reflexivity.
Qed.

Lemma reserve_absent (id : nat) (inv : list Core.Resource) :
  ~ In id (map Core.resource_id inv) -> Core.reserve id inv = inv.
Proof.
  induction inv as [|y inv IH]; intro Hn; [reflexivity|].
  cbn [Core.reserve map] in *.
  destruct (Nat.eqb_spec (Core.resource_id y) id) as [E|NE].
  - exfalso. apply Hn. left. exact E.
  - cbn [andb]. f_equal. apply IH. intro H. apply Hn. right. exact H.
Qed.

Lemma ResourceType_eqb_refl (t : Core.ResourceType) :
  Core.ResourceType_eqb t t = true.
Proof. destruct t; reflexivity. Qed.

(** Reserving an available resource takes exactly one resource from the
    supply of its type and none from the others. *)
Lemma reserve_supply (t : Core.ResourceType) (x : Core.Resource)
    (inv : list Core.Resource) :
  NoDup (map Core.resource_id inv) ->
  In x inv -> Core.is_available x = true ->
  (List.length (filter (offered t) inv)
   = List.length (filter (offered t) (Core.reserve (Core.resource_id x) inv))
     + (if Core.ResourceType_eqb (Core.resource_type x) t then 1 else 0))%nat.
Proof.
  induction inv as [|y inv IH]; intros Hnd Hin Hav; [destruct Hin|].
  cbn [map] in Hnd. inversion Hnd as [|? ? Hny Hnd']; subst.
  destruct Hin as [->|Hin].
  - cbn [Core.reserve map]. rewrite Nat.eqb_refl, Hav. cbn [andb].
    fold (Core.reserve (Core.resource_id x) inv).
    rewrite (reserve_absent _ _ Hny).
    cbn [filter].
    replace (offered t x) with (Core.ResourceType_eqb (Core.resource_type x) t)
      by (unfold offered; rewrite Hav, andb_true_r; reflexivity).
    set (y := {| Core.resource_id := Core.resource_id x;
                 Core.resource_type := Core.resource_type x;
                 Core.resource_label := Core.resource_label x;
                 Core.resource_status := Core.Occupied |}).
    assert (Hy : offered t y = false)
      by (unfold offered; cbn; apply andb_false_r).
    rewrite Hy.
    destruct (Core.ResourceType_eqb (Core.resource_type x) t);
      cbn [List.length]; lia.
  - assert (Hne : Core.resource_id y <> Core.resource_id x).
    { intro E. apply Hny. rewrite E. apply in_map, Hin. }
    cbn [Core.reserve map]. apply Nat.eqb_neq in Hne. rewrite Hne.
    cbn [andb]. fold (Core.reserve (Core.resource_id x) inv).
    cbn [filter]. specialize (IH Hnd' Hin Hav).
    destruct (offered t y); cbn [List.length]; lia.
Qed.

Lemma demand_permutation (t : Core.ResourceType) (l l' : list Core.Request) :
  Permutation l l' -> Core.demand t l = Core.demand t l'.
Proof.
  unfold Core.demand. induction 1 as [|x l l' _ IH|x y l|l l' l'' _ IH1 _ IH2].
  - reflexivity.
  - cbn [filter]. destruct (Core.ResourceType_eqb _ _); cbn [List.length]; lia.
  - cbn [filter].
    destruct (Core.ResourceType_eqb (Core.requested x) t),
             (Core.ResourceType_eqb (Core.requested y) t); reflexivity.
  - lia.
Qed.

Lemma ample_permutation (l l' : list Core.Request) (inv : list Core.Resource) :
  Permutation l l' -> Core.ample l inv -> Core.ample l' inv.
Proof.
  intros Hp [Hnd Hd]. split; [exact Hnd|].
  intro t. rewrite <- (demand_permutation t l l' Hp). apply Hd.
Qed.

(** With sufficient resources FCFS allocates every request, in the order
    given. *)
Lemma FCFS_ample (requests : list Core.Request) :
  forall inv, Core.ample requests inv ->
    Core.allocation_order (Core.FCFS requests inv)
      = map Core.request_id requests
    /\ snd (Core.FCFS requests inv) = [].
Proof.
  unfold Core.allocation_order.
  induction requests as [|r rest IH]; intros inv [Hnd Hd]; [split; reflexivity|].
  cbn [Core.FCFS].
  pose proof (Hd (Core.requested r)) as Hr.
  unfold Core.demand in Hr. cbn [filter] in Hr.
  rewrite ResourceType_eqb_refl in Hr. cbn [List.length] in Hr.
  unfold Core.supply in Hr.
  destruct (Core.listAvailable (Core.requested r) inv) as [|x avail] eqn:Eav;
    [cbn in Hr; lia|].
  destruct (listAvailable_In (Core.requested r) inv x) as (Hin & Hty & Hav).
  { rewrite Eav. left. reflexivity. }
  destruct (IH (Core.reserve (Core.resource_id x) inv)) as [Ho Hu].
  { split; [rewrite reserve_ids; exact Hnd|].
    intro t. specialize (Hd t). rewrite supply_length in *.
    pose proof (reserve_supply t x inv Hnd Hin Hav) as Hs.
    unfold Core.demand in *. cbn [filter] in Hd. rewrite Hty in Hs.
    destruct (Core.ResourceType_eqb (Core.requested r) t);
      cbn [List.length] in Hd; lia. }
  destruct (Core.FCFS rest (Core.reserve (Core.resource_id x) inv)) as [ds un].
  cbn [fst snd map Core.decided_request] in *. split; congruence.
Qed.

Lemma Priority_ample (requests : list Core.Request) (inv : list Core.Resource) :
  Core.ample requests inv ->
  Core.allocation_order (Core.Priority requests inv)
    = map Core.request_id (Core.sort_by_priority requests)
  /\ snd (Core.Priority requests inv) = [].
Proof.
  intro H. unfold Core.Priority. apply FCFS_ample.
  exact (ample_permutation _ _ inv (sort_by_priority_permutation requests) H).
Qed.

End Ample.

Lemma StronglySorted_weaken {A : Type} (R S : A -> A -> Prop) (l : list A) :
  (forall a b, R a b -> S a b) -> StronglySorted R l -> StronglySorted S l.
Proof.
  intros HRS. induction 1 as [|x l _ IH Hx]; constructor.
  - exact IH.
  - eapply Forall_impl; [|exact Hx]. intros y. apply HRS.
Qed.

Lemma precedes_priority (a b : Core.Request) :
  precedes a b -> Core.priority a <= Core.priority b.
Proof.
  unfold precedes, Core.key_le. intro Hab.
  apply orb_true_iff in Hab. destruct Hab as [Hab|Hab].
  - apply Z.ltb_lt in Hab. lia.
  - apply andb_true_iff in Hab. destruct Hab as [Hab _].
    apply Z.eqb_eq in Hab. lia.
Qed.

(** C4: under the Priority scheduler a batch of four requests with the
    priorities 3, 1, 2, 1, in arrival order and with sufficient resources,
    is allocated in the order R2, R4, R3, R1 with nothing left over; and for
    every batch in arrival order the sorted batch is a permutation of it,
    ordered by priority, that keeps the arrival order among the requests of
    each priority. *)
Theorem C4_priority_allocation_order :
  forall (r1 r2 r3 r4 : Core.Request) (inv : list Core.Resource),
    map Core.priority [r1; r2; r3; r4] = [3; 1; 2; 1] ->
    in_arrival_order [r1; r2; r3; r4] ->
    Core.ample [r1; r2; r3; r4] inv ->
    Core.allocation_order (Core.Priority [r1; r2; r3; r4] inv)
      = map Core.request_id [r2; r4; r3; r1]
    /\ snd (Core.Priority [r1; r2; r3; r4] inv) = []
    /\ Core.sort_by_priority [r1; r2; r3; r4] = [r2; r4; r3; r1]
    /\ forall (batch : list Core.Request) (p : Z),
         in_arrival_order batch ->
         Permutation batch (Core.sort_by_priority batch)
         /\ StronglySorted (fun a b => Core.priority a <= Core.priority b)
              (Core.sort_by_priority batch)
         /\ filter (has_priority p) (Core.sort_by_priority batch)
            = filter (has_priority p) batch.
Proof.
  intros r1 r2 r3 r4 inv Hp Har Ham.
  injection Hp as H1 H2 H3 H4.
  assert (H24 : (Core.arrival r2 <=? Core.arrival r4)%nat = true).
  { apply Nat.leb_le.
    inversion Har as [|? ? Hs1 _]; subst.
    inversion Hs1 as [|? ? _ Hf2]; subst.
    inversion Hf2 as [|? ? _ Hf3]; subst.
    inversion Hf3; subst. assumption. }
  assert (K34 : Core.key_le r3 r4 = false)
    by (unfold Core.key_le; rewrite H3, H4; reflexivity).
  assert (K24 : Core.key_le r2 r4 = true)
    by (unfold Core.key_le; rewrite H2, H4, H24; reflexivity).
  assert (K12 : Core.key_le r1 r2 = false)
    by (unfold Core.key_le; rewrite H1, H2; reflexivity).
  assert (K14 : Core.key_le r1 r4 = false)
    by (unfold Core.key_le; rewrite H1, H4; reflexivity).
  assert (K13 : Core.key_le r1 r3 = false)
    by (unfold Core.key_le; rewrite H1, H3; reflexivity).
  assert (Hsort : Core.sort_by_priority [r1; r2; r3; r4] = [r2; r4; r3; r1]).
  { unfold Core.sort_by_priority. cbn [fold_right].
    cbn [Core.insert_by_key]. rewrite K34.
    cbn [Core.insert_by_key]. rewrite K24.
    cbn [Core.insert_by_key]. rewrite K12, K14, K13. reflexivity. }
  destruct (Priority_ample [r1; r2; r3; r4] inv Ham) as [Ho Hu].
  split; [rewrite Ho, Hsort; reflexivity|].
  split; [exact Hu|]. split; [exact Hsort|].
  intros batch p Hb.
  split; [apply sort_by_priority_permutation|].
  split; [|apply sort_by_priority_stable, Hb].
  eapply StronglySorted_weaken; [|apply sort_by_priority_sorted].
  exact precedes_priority.
Qed.

(* ===================================================================== *)
(** * The properties at concrete inputs *)
(* ===================================================================== *)

(** A filled-in form submitted to a server that answers with the id 7. *)
Lemma C2_create_request_payload_witness :
  Forall RequestForm.from_dom typed_in
  /\ In (RequestForm.resource_type (RequestForm.form_after typed_in))
        ["Bed"; "Doctor"; "Operating Room"]
  /\ RequestForm.form_after typed_in
     = {| RequestForm.patient_name := "Ann"; RequestForm.resource_type := "Doctor";
          RequestForm.priority := Int 1; RequestForm.duration := Int 45 |}
  /\ Api.settled (RequestForm.handleSubmit (answering created_reply)
                    (RequestForm.form_after typed_in))
     = Fulfilled "Request submitted! ID = 7".
Proof.
  assert (Hdom : Forall RequestForm.from_dom typed_in).
  { unfold typed_in.
    constructor; [exact I|]. constructor; [cbn; auto|].
    constructor; [cbn; auto|]. constructor; [exact I|]. constructor. }
  destruct (C2_create_request_payload (answering created_reply) typed_in
              created_reply (Obj [("id", Number (Int 7))]) (Number (Int 7))
              Hdom eq_refl eq_refl eq_refl) as (_ & Ht & _ & Halert).
  split; [exact Hdom|]. split; [exact Ht|]. split; [reflexivity|exact Halert].
Defined.

(** The form after choosing Critical. *)
Lemma C3_priority_levels_witness :
  Forall RequestForm.from_dom typed_in
  /\ In (RequestForm.priority (RequestForm.form_after typed_in))
        [Int 1; Int 2; Int 3; Int 4]
  /\ RequestForm.priority (RequestForm.form_after typed_in) = Int 1.
Proof.
  assert (Hdom : Forall RequestForm.from_dom typed_in).
  { unfold typed_in.
    constructor; [exact I|]. constructor; [cbn; auto|].
    constructor; [cbn; auto|]. constructor; [exact I|]. constructor. }
  destruct (C3_priority_levels (answering created_reply) typed_in Hdom)
    as (_ & _ & _ & Hp & _).
  split; [exact Hdom|]. split; [exact Hp|reflexivity].
Defined.

(** The batch R1..R4 on the ward: the doctors go to R2 and R4, then the beds to R3 and R1. *)
Lemma C4_priority_allocation_order_witness :
  map Core.priority [R1; R2; R3; R4] = [3; 1; 2; 1]
  /\ in_arrival_order [R1; R2; R3; R4]
  /\ Core.ample [R1; R2; R3; R4] ward
  /\ Core.allocation_order (Core.Priority [R1; R2; R3; R4] ward)
     = [2; 4; 3; 1]%nat
  /\ map Core.decided_resource (fst (Core.Priority [R1; R2; R3; R4] ward))
     = [5; 7; 2; 3]%nat.
Proof.
  assert (Hp : map Core.priority [R1; R2; R3; R4] = [3; 1; 2; 1]) by reflexivity.
  assert (Ha : in_arrival_order [R1; R2; R3; R4]).
  { unfold in_arrival_order.
    repeat (constructor; cbn [Core.arrival R1 R2 R3 R4 request_of]); lia. }
  assert (Hm : Core.ample [R1; R2; R3; R4] ward).
  { split.
    - cbn. repeat constructor; cbn; intros H;
        repeat (destruct H as [H|H]; [discriminate H|]); exact H.
    - intros [| |]; cbn; lia. }
  destruct (C4_priority_allocation_order R1 R2 R3 R4 ward Hp Ha Hm)
    as (Ho & _).
  split; [exact Hp|]. split; [exact Ha|]. split; [exact Hm|].
  split; [exact Ho|reflexivity].
Defined.

(** Two allocations that differ in their duration only render the same. *)
Lemma C5_allocation_fields_rendered_witness :
  [rest_allocation] <> []
  /\ Forall defined [rest_allocation]
  /\ Forall defined [rest_allocation_longer]
  /\ Forall2 (agree_on allocation_fields) [rest_allocation] [rest_allocation_longer]
  /\ shown (AllocationResults.AllocationResults (Arr [rest_allocation]))
     = [Str "John Doe"; Str "Dr. Smith"; Str "doctor"]
  /\ AllocationResults.AllocationResults (Arr [rest_allocation_longer])
     = AllocationResults.AllocationResults (Arr [rest_allocation]).
Proof.
  assert (Hne : [rest_allocation] <> []) by discriminate.
  assert (Hd : Forall defined [rest_allocation])
    by (constructor; [split; discriminate|constructor]).
  assert (Hd' : Forall defined [rest_allocation_longer])
    by (constructor; [split; discriminate|constructor]).
  assert (Hag : Forall2 (agree_on allocation_fields)
                  [rest_allocation] [rest_allocation_longer]).
  { constructor; [|constructor]. intros k Hk. cbn in Hk.
    destruct Hk as [<-|[<-|[<-|[]]]]; reflexivity. }
  destruct (C5_allocation_fields_rendered [rest_allocation]
              [rest_allocation_longer] Hne Hd Hd' Hag) as (_ & Hs & He).
  split; [exact Hne|]. split; [exact Hd|]. split; [exact Hd'|].
  split; [exact Hag|]. split; [exact Hs|exact He].
Defined.

(** One resource of the REST layer, fetched and rendered. *)
Lemma C6_resource_fields_rendered_witness :
  Forall defined [rest_resource]
  /\ ResourceList.refreshed (answering resources_reply) (Arr []) = Arr [rest_resource]
  /\ shown (ResourceList.ResourceList
              (ResourceList.refreshed (answering resources_reply) (Arr [])))
     = [Str "Dr. Smith"; Str "doctor"; Str "available"]
  /\ map key_of (each_from resource_card 0 [rest_resource])
     = [Some (Number (Int 1))]
  /\ map className_of (each_from resource_card 0 [rest_resource])
     = [Some "resource-card available"].
Proof.
  assert (Hd : Forall defined [rest_resource])
    by (constructor; [split; discriminate|constructor]).
  destruct (C6_resource_fields_rendered (answering resources_reply)
              resources_reply [rest_resource] (Arr []) eq_refl eq_refl Hd)
    as (Hr & _ & Hs & Hk & Hc).
  split; [exact Hd|]. split; [exact Hr|]. split; [exact Hs|].
  split; [exact Hk|exact Hc].
Defined.

(** Four submissions, three of them invalid: only the first is queued. *)
Lemma C7_invalid_submission_rejected_witness :
  Core.invalid "Operating Room" 2 30
  /\ Core.submitRequest (empty_manager ward) "Bob" "Operating Room" 2 30
     = (Core.ValidationError Core.resourceType_field, empty_manager ward)
  /\ map Core.patientName (Core.queue (submit_all (empty_manager ward) submissions))
     = ["Ann"]
  /\ Forall well_formed (Core.queue (submit_all (empty_manager ward) submissions)).
Proof.
  assert (Hinv : Core.invalid "Operating Room" 2 30)
    by (exists Core.resourceType_field; reflexivity).
  destruct (C7_invalid_submission_rejected (empty_manager ward) "Bob"
              "Operating Room" 2 30 ward submissions Hinv) as (_ & _ & Hq).
  split; [exact Hinv|]. split; [reflexivity|]. split; [reflexivity|exact Hq].
Defined.

(** An unknown-algorithm error empties the list displayed. *)
Lemma C9_missing_allocations_give_empty_list_witness :
  Get (Obj [("error", Str "Unknown algorithm")]) "allocations" = Fulfilled Undefined
  /\ ToBoolean Undefined = false
  /\ SchedulePanel.onClick (answering error_reply) SchedulePanel.RoundRobin
       (Arr [rest_allocation]) = Arr []
  /\ exists items,
       SchedulePanel.onClick (answering error_reply) SchedulePanel.RoundRobin
         (Arr [rest_allocation]) = Arr items
       /\ (AllocationResults.AllocationResults
             (SchedulePanel.onClick (answering error_reply) SchedulePanel.RoundRobin
                (Arr [rest_allocation]))
           = Fulfilled AllocationResults.empty_state
           <-> items = []).
Proof.
  destruct (C9_missing_allocations_give_empty_list (answering error_reply)
              SchedulePanel.RoundRobin (Arr [rest_allocation]) error_reply
              (Obj [("error", Str "Unknown algorithm")]) Undefined
              eq_refl eq_refl eq_refl (or_introl eq_refl))
    as (items & Hc & _ & _ & Hiff).
  split; [reflexivity|]. split; [reflexivity|]. split; [reflexivity|].
  exists items. split; [exact Hc|exact Hiff].
Defined.

(* ===================================================================== *)
(** * The built-ins on the inputs of the form *)
(* ===================================================================== *)

Example parseInt_inputs :
  map parseInt ["30"; ""; "-5"; "0"; "  12px"; "1e3"; "1.5"; "0x1F"; "abc"; "-"]
  = [Int 30; NaN; Int (-5); Int 0; Int 12; Int 1; Int 1; Int 31; NaN; NaN].
Proof. reflexivity. Qed.

Example JSON_stringify_initial_form :
  JSON_stringify (RequestForm.form_value RequestForm.initial_form)
  = Some ("{" ++ quote "patient_name" ++ ":" ++ quote "" ++ ","
              ++ quote "resource_type" ++ ":" ++ quote "Bed" ++ ","
              ++ quote "priority" ++ ":2," ++ quote "duration" ++ ":30}").
Proof. reflexivity. Qed.

Example JSON_stringify_skips_undefined :
  JSON_stringify (Obj [("a", Undefined); ("b", Arr [Undefined; Number NaN; Bool true])])
  = Some ("{" ++ quote "b" ++ ":[null,null,true]}").
Proof. reflexivity. Qed.

Example quote_escapes :
  quote (String dquote (String "\" (String (ascii_of_nat 10) "a")))
  = String dquote ("\" ++ String dquote ("\\\n" ++ "a" ++ String dquote "")).
Proof. reflexivity. Qed.

Example ToString_values :
  map ToString [Undefined; Null; Number NaN; Number (Int (-7));
                Arr [Number (Int 1); Null; Str "a"]; Obj []]
  = ["undefined"; "null"; "NaN"; "-7"; "1,,a"; "[object Object]"].
Proof. reflexivity. Qed.


(* ===================================================================== *)
(** * The request form over a sequence of edits *)
(* ===================================================================== *)

Lemma fold_onChange_latest (es : list RequestForm.event) :
  forall f,
    fold_left RequestForm.onChange es f
    = {| RequestForm.patient_name :=
           match latest name_typed es with
           | Some v => v
           | None => RequestForm.patient_name f
           end;
         RequestForm.resource_type :=
           match latest type_chosen es with
           | Some v => v
           | None => RequestForm.resource_type f
           end;
         RequestForm.priority :=
           match latest priority_chosen es with
           | Some v => parseInt v
           | None => RequestForm.priority f
           end;
         RequestForm.duration :=
           match latest duration_typed es with
           | Some v => parseInt v
           | None => RequestForm.duration f
           end |}.
Proof.
  induction es as [|e es IH]; intro f.
  - destruct f; reflexivity.
  - cbn [fold_left latest]. rewrite IH.
    destruct (latest name_typed es), (latest type_chosen es),
      (latest priority_chosen es), (latest duration_typed es);
      destruct e; reflexivity.
Qed.

(** X1: the four fields of the form are independent and the last edit
    wins: after any sequence of edits each field holds what its own last
    edit entered (parsed, for priority and duration), or its initial value
    when it was never edited. *)
Theorem X1_last_edit_wins :
  forall (es : list RequestForm.event),
    RequestForm.form_after es
    = {| RequestForm.patient_name :=
           match latest name_typed es with Some v => v | None => "" end;
         RequestForm.resource_type :=
           match latest type_chosen es with Some v => v | None => "Bed" end;
         RequestForm.priority :=
           match latest priority_chosen es with
           | Some v => parseInt v
           | None => Int 2
           end;
         RequestForm.duration :=
           match latest duration_typed es with
           | Some v => parseInt v
           | None => Int 30
           end |}.
Proof.
  intro es. unfold RequestForm.form_after.
  rewrite fold_onChange_latest. reflexivity.
Qed.

(* ===================================================================== *)
(** * What the submit handler tells the user *)
(* ===================================================================== *)

Lemma defined_not_nullish (v : value) : defined v -> ~ nullish v.
Proof. intros [Hu Hn] [H|H]; congruence. Qed.

Lemma defined_or_nullish (v : value) : defined v \/ nullish v.
Proof.
  destruct v; try (left; split; discriminate);
    right; [left|right]; reflexivity.
Qed.

Lemma Get_nullish (v : value) (k : string) :
  nullish v -> exists e, Get v k = Rejected e.
Proof. intros [->| ->]; cbn; eauto. Qed.

(** X2: whatever the status of the response, when its body is a JSON value
    other than null the user is told that the request was submitted, with
    the [id] of the body; a body without [id], such as an error report,
    gives "ID = undefined". *)
Theorem X2_alert_on_any_reply :
  forall (network : Api.request -> outcome Api.response) (f : RequestForm.form)
         (res : Api.response) (reply : value),
    network (Api.createRequest_call (RequestForm.form_value f)) = Fulfilled res ->
    Api.json res = Fulfilled reply ->
    defined reply ->
    Api.settled (RequestForm.handleSubmit network f)
      = Fulfilled ("Request submitted! ID = " ++ ToString (field reply "id"))
    /\ (field reply "id" = Undefined ->
        Api.settled (RequestForm.handleSubmit network f)
        = Fulfilled "Request submitted! ID = undefined").
Proof.
  intros network f res reply Hnet Hjson Hdef.
  assert (H : Api.settled (RequestForm.handleSubmit network f)
              = Fulfilled ("Request submitted! ID = " ++ ToString (field reply "id"))).
  { apply (handleSubmit_alert network f res reply _ Hnet Hjson).
    apply Get_defined, Hdef. }
  split; [exact H|]. intro Hid. rewrite H, Hid. reflexivity.
Qed.

(** X3: the alert is skipped, and the promise of [handleSubmit] rejected,
    exactly when the request got no usable reply: [fetch] rejected, the
    body was not JSON, or the body was null.  The request has been sent in
    every case. *)
Theorem X3_no_alert_iff_no_reply :
  forall (network : Api.request -> outcome Api.response) (f : RequestForm.form),
    ((exists e, Api.settled (RequestForm.handleSubmit network f) = Rejected e)
     <-> no_reply network (Api.createRequest_call (RequestForm.form_value f)))
    /\ Api.sent (RequestForm.handleSubmit network f)
       = [Api.createRequest_call (RequestForm.form_value f)].
Proof.
  intros network f. split; [|apply handleSubmit_sent].
  unfold no_reply, RequestForm.handleSubmit, Api.createRequest, Api.settled,
    Api.then_, Api.fetch, Api.lift, Api.ret.
  destruct (network _) as [res|e]; cbn [snd]; [|split; eauto].
  destruct (Api.json res) as [reply|e]; cbn [snd]; [|split; eauto].
  destruct (defined_or_nullish reply) as [Hd|Hn].
  - rewrite (Get_defined reply "id" Hd). cbn [snd]. split.
    + intros [e He]. discriminate.
    + intro Hn. destruct (defined_not_nullish reply Hd Hn).
  - destruct (Get_nullish reply "id" Hn) as [e He]. rewrite He. cbn [snd].
    split; eauto.
Qed.

(* ===================================================================== *)
(** * The allocations held by App *)
(* ===================================================================== *)

Lemma run_truthy (network : Api.request -> outcome Api.response) (alg v : value) :
  Api.settled (SchedulePanel.run network alg) = Fulfilled v -> ToBoolean v = true.
Proof.
  unfold SchedulePanel.run, Api.runScheduler, Api.settled, Api.then_,
    Api.fetch, Api.lift, Api.ret.
  destruct (network _) as [res|e]; cbn [snd]; [|discriminate].
  destruct (Api.json res) as [reply|e]; cbn [snd]; [|discriminate].
  destruct (Get reply "allocations") as [a|e]; cbn [snd]; [|discriminate].
  intros [= <-]. unfold or_else.
  destruct (ToBoolean a) eqn:E; [exact E|reflexivity].
Qed.

Lemma onClick_truthy (network : Api.request -> outcome Api.response)
    (b : SchedulePanel.button) (old : value) :
  ToBoolean old = true -> ToBoolean (SchedulePanel.onClick network b old) = true.
Proof.
  intro Hold. unfold SchedulePanel.onClick.
  destruct (Api.settled (SchedulePanel.run network (SchedulePanel.onClick_alg b)))
    as [v|e] eqn:E; [|exact Hold].
  exact (run_truthy network _ v E).
Qed.

Lemma truthy_defined (v : value) : ToBoolean v = true -> defined v.
Proof. destruct v; cbn; intro H; split; discriminate. Qed.

Lemma fold_onClick_truthy (cs : list App.click) :
  forall st, ToBoolean st = true ->
    ToBoolean (fold_left (fun st c => SchedulePanel.onClick (snd c) (fst c) st) cs st)
    = true.
Proof.
  induction cs as [|c cs IH]; intros st Hst; [exact Hst|].
  cbn [fold_left]. apply IH, onClick_truthy, Hst.
Qed.

(** X4: whatever buttons are clicked and however the network answers, the
    allocations that [App] passes to [AllocationResults] are never
    undefined, null or another falsy value, so reading their [length] does
    not throw. *)
Theorem X4_allocations_always_readable :
  forall (cs : list App.click),
    ToBoolean (App.allocations_after cs) = true
    /\ defined (App.allocations_after cs)
    /\ Get (App.allocations_after cs) "length"
       = Fulfilled (field (App.allocations_after cs) "length").
Proof.
  intro cs.
  assert (H : ToBoolean (App.allocations_after cs) = true)
    by (apply fold_onClick_truthy; reflexivity).
  split; [exact H|]. split; [apply truthy_defined, H|].
  apply Get_defined, truthy_defined, H.
Qed.

Lemma run_rejected_iff (network : Api.request -> outcome Api.response) (alg : value) :
  (exists e, Api.settled (SchedulePanel.run network alg) = Rejected e)
  <-> no_reply network (Api.runScheduler_call alg).
Proof.
  unfold no_reply, SchedulePanel.run, Api.runScheduler, Api.settled,
    Api.then_, Api.fetch, Api.lift, Api.ret.
  destruct (network _) as [res|e]; cbn [snd]; [|split; eauto].
  destruct (Api.json res) as [reply|e]; cbn [snd]; [|split; eauto].
  destruct (defined_or_nullish reply) as [Hd|Hn].
  - rewrite (Get_defined reply "allocations" Hd). cbn [snd]. split.
    + intros [e He]. discriminate.
    + intro Hn. destruct (defined_not_nullish reply Hd Hn).
  - destruct (Get_nullish reply "allocations" Hn) as [e He]. rewrite He.
    cbn [snd]. split; eauto.
Qed.

(** X5: when a scheduler run gets no usable reply (the network is down, the
    body is not JSON, or it is null), [run] throws after the request was
    sent, [setAllocations] is not called, and the list displayed before
    stays as it is. *)
Theorem X5_failed_run_keeps_list :
  forall (network : Api.request -> outcome Api.response)
         (b : SchedulePanel.button) (old : value),
    no_reply network (Api.runScheduler_call (SchedulePanel.onClick_alg b)) ->
    SchedulePanel.onClick network b old = old
    /\ (exists e, Api.settled (SchedulePanel.run network (SchedulePanel.onClick_alg b))
                  = Rejected e)
    /\ Api.sent (SchedulePanel.run network (SchedulePanel.onClick_alg b))
       = [Api.runScheduler_call (SchedulePanel.onClick_alg b)].
Proof.
  intros network b old Hno.
  apply run_rejected_iff in Hno. destruct Hno as [e He].
  split; [|split; [exists e; exact He|apply sent_run]].
  unfold SchedulePanel.onClick. rewrite He. reflexivity.
Qed.

(* ===================================================================== *)
(** * When the two lists render *)
(* ===================================================================== *)

Lemma each_from_length (g : value -> nat -> node) (items : list value) :
  forall i, List.length (each_from g i items) = List.length items.
Proof.
  induction items as [|a items IH]; intro i; [reflexivity|].
  cbn [each_from List.length]. rewrite IH. reflexivity.
Qed.

Lemma allocation_row_keys (items : list value) :
  forall i, map key_of (each_from allocation_row i items)
            = map index_key (seq i (List.length items)).
Proof.
  induction items as [|a items IH]; intro i; [reflexivity|].
  cbn [each_from map List.length seq key_of allocation_row].
  rewrite IH. reflexivity.
Qed.

(** X6: a non-empty list of allocations (none of them null) is rendered as
    as many paragraphs as it has elements, keyed by their positions 0, 1,
    2, ... in the list. *)
Theorem X6_one_paragraph_per_allocation :
  forall (items : list value),
    items <> [] ->
    Forall defined items ->
    exists rows,
      AllocationResults.AllocationResults (Arr items)
      = Fulfilled
          (Elem "div" None None
             [Elem "h2" None None [Text "Scheduling Output"]; Items rows])
      /\ List.length rows = List.length items
      /\ map key_of rows = map index_key (seq 0 (List.length items)).
Proof.
  intros items Hne Hall. exists (each_from allocation_row 0 items).
  split; [apply AllocationResults_nonempty; assumption|].
  split; [apply each_from_length|apply allocation_row_keys].
Qed.

Lemma Forall_defined_or_Exists_nullish (items : list value) :
  Forall defined items \/ Exists nullish items.
Proof.
  induction items as [|a items [IH|IH]].
  - left. constructor.
  - destruct (defined_or_nullish a) as [Ha|Ha].
    + left. constructor; assumption.
    + right. apply Exists_cons_hd, Ha.
  - right. apply Exists_cons_tl, IH.
Qed.

(** A callback that throws on null and undefined makes [map] throw as soon
    as the array holds one of them. *)
Lemma map_from_nullish (f : value -> nat -> outcome node) (items : list value) :
  (forall a i, nullish a -> exists e, f a i = Rejected e) ->
  Exists nullish items ->
  forall i, exists e, map_from f i items = Rejected e.
Proof.
  intros Hf Hex. induction Hex as [a items Ha|a items _ IH]; intro i;
    cbn [map_from].
  - destruct (Hf a i Ha) as [e He]. rewrite He. cbn [bind]. eauto.
  - destruct (f a i) as [y|e]; cbn [bind]; [|eauto].
    destruct (IH (S i)) as [e He]. rewrite He. cbn [bind]. eauto.
Qed.

Lemma row_nullish (a : value) (i : nat) :
  nullish a -> exists e, AllocationResults.row a i = Rejected e.
Proof. intros [->| ->]; cbn; eauto. Qed.

Lemma card_nullish (a : value) (i : nat) :
  nullish a -> exists e, ResourceList.card a i = Rejected e.
Proof. intros [->| ->]; cbn; eauto. Qed.

(** X7: rendering a list of allocations throws exactly when one of its
    elements is null or undefined; one such element is enough for nothing
    of the list to be rendered. *)
Theorem X7_null_allocation_breaks_render :
  forall (items : list value),
    (exists e, AllocationResults.AllocationResults (Arr items) = Rejected e)
    <-> Exists nullish items.
Proof.
  intro items. split.
  - intros [e He].
    destruct (Forall_defined_or_Exists_nullish items) as [Hall|Hex]; [|exact Hex].
    exfalso. destruct items as [|a items]; [discriminate He|].
    rewrite AllocationResults_nonempty in He by (congruence || assumption).
    discriminate He.
  - intro Hex. destruct items as [|a items]; [inversion Hex|].
    unfold AllocationResults.AllocationResults.
    cbn [Get String.eqb Ascii.eqb Bool.eqb bind ToBoolean].
    replace (Z.of_nat (Datatypes.length (a :: items)) =? 0) with false
      by (symmetry; apply Z.eqb_neq; cbn [Datatypes.length]; lia).
    cbn [negb call_map].
    destruct (map_from_nullish AllocationResults.row (a :: items)
                row_nullish Hex 0%nat) as [e He].
    rewrite He. cbn [bind]. eauto.
Qed.

(** X8: for every value whose properties can be read, array or not, the
    empty-state message is rendered exactly when its [length] is falsy:
    zero, or missing as on a number or a plain object. *)
Theorem X8_empty_state_iff_falsy_length :
  forall (allocations : value),
    defined allocations ->
    (AllocationResults.AllocationResults allocations
       = Fulfilled AllocationResults.empty_state
     <-> ToBoolean (field allocations "length") = false).
Proof.
  intros v Hd. unfold AllocationResults.AllocationResults.
  rewrite (Get_defined v "length" Hd). cbn [bind].
  destruct (ToBoolean (field v "length")); cbn [negb].
  - split; [|discriminate].
    destruct (call_map "allocations" v AllocationResults.row); cbn [bind];
      discriminate.
  - split; reflexivity.
Qed.

(** X9: [refresh] stores the reply as it is, with no guard: when the body is
    JSON but not an array (an error report, null), it becomes the state of
    the panel and the next render throws. *)
Theorem X9_non_array_resources_break_render :
  forall (network : Api.request -> outcome Api.response) (res : Api.response)
         (data old : value),
    network Api.getResources_call = Fulfilled res ->
    Api.json res = Fulfilled data ->
    (forall items, data <> Arr items) ->
    ResourceList.refreshed network old = data
    /\ exists e, ResourceList.ResourceList (ResourceList.refreshed network old)
                 = Rejected e.
Proof.
  intros network res data old Hnet Hjson Hna.
  rewrite (refreshed_data network res data old Hnet Hjson).
  split; [reflexivity|].
  unfold ResourceList.ResourceList.
  destruct data; cbn [call_map bind]; eauto.
  destruct (Hna items eq_refl).
Qed.

(** X10: the resource panel renders exactly when its state is an array
    without null or undefined elements; the empty array included. *)
Theorem X10_resources_render_iff :
  forall (resources : value),
    (exists n, ResourceList.ResourceList resources = Fulfilled n)
    <-> exists items, resources = Arr items /\ Forall defined items.
Proof.
  intro v. split.
  - intros [n Hn]. destruct v;
      try (unfold ResourceList.ResourceList in Hn; cbn [call_map bind] in Hn;
           discriminate Hn).
    exists items. split; [reflexivity|].
    destruct (Forall_defined_or_Exists_nullish items) as [Hall|Hex]; [exact Hall|].
    exfalso. unfold ResourceList.ResourceList in Hn. cbn [call_map] in Hn.
    destruct (map_from_nullish ResourceList.card items card_nullish Hex 0%nat)
      as [e He].
    rewrite He in Hn. discriminate Hn.
  - intros (items & -> & Hall). eexists. apply ResourceList_defined, Hall.
Qed.


(* ===================================================================== *)
(** * Numbers typed into the form *)
(* ===================================================================== *)











(* ===================================================================== *)
(** * The further properties at concrete inputs *)
(* ===================================================================== *)

(** A request the REST layer answers with 422 and an error report. *)
Lemma X2_alert_on_any_reply_witness :
  defined (Obj [("detail", Str "value is not a valid integer")])
  /\ Api.settled (RequestForm.handleSubmit (answering unprocessable_reply)
                    (RequestForm.form_after [RequestForm.DurationChange "abc"]))
     = Fulfilled "Request submitted! ID = undefined".
Proof.
  assert (Hd : defined (Obj [("detail", Str "value is not a valid integer")]))
    by (split; discriminate).
  destruct (X2_alert_on_any_reply (answering unprocessable_reply)
              (RequestForm.form_after [RequestForm.DurationChange "abc"])
              unprocessable_reply
              (Obj [("detail", Str "value is not a valid integer")])
              eq_refl eq_refl Hd) as [_ H].
  split; [exact Hd|]. apply H. reflexivity.
Defined.

(** A click while the network is down. *)
Lemma X5_failed_run_keeps_list_witness :
  no_reply offline (Api.runScheduler_call (SchedulePanel.onClick_alg SchedulePanel.Priority))
  /\ SchedulePanel.onClick offline SchedulePanel.Priority (Arr rest_allocations)
     = Arr rest_allocations
  /\ Api.settled (SchedulePanel.run offline (SchedulePanel.onClick_alg SchedulePanel.Priority))
     = Rejected (NetworkError "Failed to fetch").
Proof.
  assert (Hno : no_reply offline
                  (Api.runScheduler_call (SchedulePanel.onClick_alg SchedulePanel.Priority)))
    by exact I.
  destruct (X5_failed_run_keeps_list offline SchedulePanel.Priority
              (Arr rest_allocations) Hno) as (Hold & _ & _).
  split; [exact Hno|]. split; [exact Hold|reflexivity].
Defined.

(** Two allocations give two paragraphs with the keys 0 and 1. *)
Lemma X6_one_paragraph_per_allocation_witness :
  rest_allocations <> []
  /\ Forall defined rest_allocations
  /\ exists rows,
       AllocationResults.AllocationResults (Arr rest_allocations)
       = Fulfilled
           (Elem "div" None None
              [Elem "h2" None None [Text "Scheduling Output"]; Items rows])
       /\ List.length rows = 2%nat
       /\ map key_of rows = [Some (Number (Int 0)); Some (Number (Int 1))].
Proof.
  assert (Hne : rest_allocations <> []) by discriminate.
  assert (Hd : Forall defined rest_allocations)
    by (repeat (constructor; [split; discriminate|]); constructor).
  destruct (X6_one_paragraph_per_allocation rest_allocations Hne Hd)
    as (rows & Hr & Hl & Hk).
  split; [exact Hne|]. split; [exact Hd|].
  exists rows. split; [exact Hr|]. split; [exact Hl|exact Hk].
Defined.

(** An object put in place of the list shows the empty-state message. *)
Lemma X8_empty_state_iff_falsy_length_witness :
  defined (Obj [("count", Number (Int 2))])
  /\ SchedulePanel.onClick (answering object_reply) SchedulePanel.FCFS (Arr [])
     = Obj [("count", Number (Int 2))]
  /\ AllocationResults.AllocationResults (Obj [("count", Number (Int 2))])
     = Fulfilled AllocationResults.empty_state.
Proof.
  assert (Hd : defined (Obj [("count", Number (Int 2))])) by (split; discriminate).
  destruct (X8_empty_state_iff_falsy_length (Obj [("count", Number (Int 2))]) Hd)
    as [_ H].
  split; [exact Hd|]. split; [reflexivity|]. apply H. reflexivity.
Defined.

(** An error report in reply to the resources query. *)
Lemma X9_non_array_resources_break_render_witness :
  (forall items, Obj [("error", Str "Unknown algorithm")] <> Arr items)
  /\ ResourceList.refreshed (answering error_reply) (Arr [rest_resource])
     = Obj [("error", Str "Unknown algorithm")]
  /\ ResourceList.ResourceList
       (ResourceList.refreshed (answering error_reply) (Arr [rest_resource]))
     = Rejected (TypeError "resources.map is not a function").
Proof.
  assert (Hna : forall items, Obj [("error", Str "Unknown algorithm")] <> Arr items)
    by (intros items; discriminate).
  destruct (X9_non_array_resources_break_render (answering error_reply) error_reply
              (Obj [("error", Str "Unknown algorithm")]) (Arr [rest_resource])
              eq_refl eq_refl Hna) as [Hr _].
  split; [exact Hna|]. split; [exact Hr|reflexivity].
Defined.

